(** * flareproxygo: the FlareSolverr adapter of [main.go]

    A shallow embedding of the two HTTP handlers of [main.go]
    ([ProxyHandler] and [DirectHandler]) together with the small part of
    the Go standard library they rely on ([strings], [encoding/json],
    [net/http]), followed by the properties of the handlers. *)

From Stdlib Require Import ZArith Lia Ascii String List.
From stdpp Require Import base strings list gmap.
From Equations Require Import Equations.

Local Open Scope string_scope.

(** ** Package [strings]

    Go strings are byte sequences; they are modelled by [string], one
    [ascii] per byte. *)

Module gostrings.

(** [s[n:]] *)
Fixpoint slice_from (n : nat) (s : string) : string :=
  match n, s with
  | O, _ => s
  | S _, EmptyString => EmptyString
  | S n', String _ s' => slice_from n' s'
  end.

(** [s[:n]] *)
Fixpoint slice_to (n : nat) (s : string) : string :=
  match n, s with
  | O, _ => EmptyString
  | S _, EmptyString => EmptyString
  | S n', String c s' => String c (slice_to n' s')
  end.

(** [strings.HasPrefix(s, prefix)] *)
Fixpoint HasPrefix (s prefix : string) {struct prefix} : bool :=
  match prefix, s with
  | EmptyString, _ => true
  | String _ _, EmptyString => false
  | String c p', String d s' => bool_decide (c = d) && HasPrefix s' p'
  end.

(** [strings.Index(s, substr)], [None] standing for [-1]. *)
Fixpoint Index (s substr : string) : option nat :=
  if HasPrefix s substr then Some O
  else match s with
       | EmptyString => None
       | String _ s' => S <$> Index s' substr
       end.

(** [strings.Contains(s, substr)] *)
Definition Contains (s substr : string) : bool :=
  bool_decide (is_Some (Index s substr)).

(** [strings.Replace(s, old, new, 1)]: the leftmost occurrence of [old]
    is replaced by [new]; [s] is returned as it is when [old] does not
    occur. *)
Fixpoint Replace1 (s old new : string) : string :=
  if HasPrefix s old then new +:+ slice_from (String.length old) s
  else match s with
       | EmptyString => EmptyString
       | String c s' => String c (Replace1 s' old new)
       end.

(** [strings.SplitN(s, sep, n)] for a non-empty separator and [n >= 0]:
    at most [n] pieces, the last one being the unsplit remainder. *)
Fixpoint SplitN (s sep : string) (n : nat) : list string :=
  match n with
  | O => []
  | S O => [s]
  | S n' =>
      match Index s sep with
      | None => [s]
      | Some m =>
          slice_to m s :: SplitN (slice_from (m + String.length sep) s) sep n'
      end
  end.

End gostrings.

Import gostrings.

(** ** Errors

    A Go [error] is kept with the structure [main.go] can observe through
    [%v]: its [Error()] text. *)

Inductive error :=
| errorString (text : string)
| SyntaxError (msg : string)
| UnmarshalTypeError (Value Struct Field GoType : string).

(** [err.Error()]; the third case is the [Error] method of
    [UnmarshalTypeError]. *)
Definition Error (e : error) : string :=
  match e with
  | errorString text => text
  | SyntaxError msg => msg
  | UnmarshalTypeError Value Struct Field GoType =>
      if bool_decide (Struct = "" /\ Field = "")
      then "json: cannot unmarshal " +:+ Value +:+ " into Go value of type " +:+ GoType
      else "json: cannot unmarshal " +:+ Value +:+ " into Go struct field "
             +:+ Struct +:+ "." +:+ Field +:+ " of type " +:+ GoType
  end.

Inductive result (A : Type) :=
| Ok (a : A)
| Err (err : error).
Arguments Ok {A} a.
Arguments Err {A} err.

(** ** The structs of [main.go] *)

Record FlareSolverrRequest := {
  Cmd : string;
  URL : string;
  MaxTimeout : Z
}.

(** ** Package [encoding/json], as far as [main.go] uses it *)

Module json.

(** A number literal together with what [strconv] makes of it:
    [int64] is the result of [ParseInt(literal, 10, 64)], [float64]
    tells whether [ParseFloat(literal, 64)] accepts it. *)
Record number := {
  literal : string;
  int64 : option Z;
  float64 : bool
}.

(** A JSON document; an object keeps its members in document order. *)
#[warnings="-register-all"]
Inductive value :=
| JNull
| JBool (b : bool)
| JNumber (n : number)
| JString (s : string)
| JArray (elems : list value)
| JObject (members : list (string * value)).

(** The decoder's name of a value's kind, as used in its type errors. *)
Definition kind (v : value) : string :=
  match v with
  | JNull => "null"
  | JBool _ => "bool"
  | JNumber _ => "number"
  | JString _ => "string"
  | JArray _ => "array"
  | JObject _ => "object"
  end.

(** The bytes handed to [json.Unmarshal]: either text that is not valid
    JSON, with the scanner's complaint, or a document. *)
Inductive data :=
| Invalid (complaint : string)
| Document (v : value).

Definition upper (c : ascii) : ascii :=
  let n := nat_of_ascii c in
  if (97 <=? n)%nat && (n <=? 122)%nat then ascii_of_nat (n - 32) else c.

(** [foldName], precise where it matters for the ASCII field names of
    [main.go]: ASCII letters are upper-cased, and the two non-ASCII runes
    whose case orbit holds an ASCII letter (U+017F and U+212A, in UTF-8)
    are sent to that letter; other bytes above 127 stay in place. *)
Fixpoint foldName (s : string) : string :=
  match s with
  | EmptyString => EmptyString
  | String c rest =>
      match rest with
      | String c1 rest1 =>
          if bool_decide (nat_of_ascii c = 197%nat /\ nat_of_ascii c1 = 191%nat)
          then String "S" (foldName rest1)
          else
            match rest1 with
            | String c2 rest2 =>
                if bool_decide (nat_of_ascii c = 226%nat /\ nat_of_ascii c1 = 132%nat
                                /\ nat_of_ascii c2 = 170%nat)
                then String "K" (foldName rest2)
                else String (upper c) (foldName rest)
            | EmptyString => String (upper c) (foldName rest)
            end
      | EmptyString => String (upper c) EmptyString
      end
  end.

(** Whether the object key [key] selects the struct field tagged [name]:
    exact match first, folded match otherwise. *)
Definition selects (key name : string) : bool :=
  bool_decide (key = name) || bool_decide (foldName key = foldName name).

End json.

Import json.

#[global] Instance result_ret : MRet result := fun _ a => Ok a.
#[global] Instance result_bind : MBind result := fun _ _ f r =>
  match r with
  | Ok a => f a
  | Err err => Err err
  end.

(** The anonymous struct of the field [Solution]. *)
Module Sol.
Record t := mk {
  Response : string;
  Status : Z;
  Cookies : list value;
  UserAgent : string
}.
Definition zero : t := mk "" 0 [] "".
End Sol.

Record FlareSolverrResponse := {
  Solution : Sol.t;
  Status : string;
  Message : string
}.

Definition zeroResponse : FlareSolverrResponse :=
  {| Solution := Sol.zero; Status := ""; Message := "" |}.

(** *** [json.Unmarshal] into a [FlareSolverrResponse]

    The decoder walks the members of an object in order; a member whose
    key selects a field is stored into it, [null] leaves a field as it is,
    other members are skipped, and the first value of the wrong kind makes
    the whole call fail with an [UnmarshalTypeError]. *)

Module decode.

Definition dq : string := String (ascii_of_nat 34) EmptyString.

Definition tag (name : string) : string :=
  dq +:+ "json:\" +:+ dq +:+ name +:+ "\" +:+ dq +:+ dq.

(** [reflect.Type.String()] of the two struct types. *)
Definition responseType : string := "main.FlareSolverrResponse".
Definition solutionType : string :=
  "struct { Response string " +:+ tag "response"
    +:+ "; Status int " +:+ tag "status"
    +:+ "; Cookies []interface {} " +:+ tag "cookies"
    +:+ "; UserAgent string " +:+ tag "userAgent" +:+ " }".

Definition storeString (Struct Field : string) (v : value) (cur : string)
  : result string :=
  match v with
  | JNull => Ok cur
  | JString s => Ok s
  | _ => Err (UnmarshalTypeError (kind v) Struct Field "string")
  end.

Definition storeInt (Struct Field : string) (v : value) (cur : Z) : result Z :=
  match v with
  | JNull => Ok cur
  | JNumber n =>
      match int64 n with
      | Some z => Ok z
      | None => Err (UnmarshalTypeError ("number " +:+ literal n) Struct Field "int")
      end
  | _ => Err (UnmarshalTypeError (kind v) Struct Field "int")
  end.

(** Storing into [interface{}] fails only on a number literal that
    [float64] cannot hold; the first such literal is returned. *)
Fixpoint badFloat (v : value) : option string :=
  match v with
  | JNumber n => if float64 n then None else Some (literal n)
  | JArray elems =>
      fold_right (fun e acc => match badFloat e with Some l => Some l | None => acc end)
                 None elems
  | JObject members =>
      fold_right (fun kv acc => match badFloat (snd kv) with Some l => Some l | None => acc end)
                 None members
  | _ => None
  end.

Definition storeSlice (Struct Field : string) (v : value) (cur : list value)
  : result (list value) :=
  match v with
  | JNull => Ok []
  | JArray elems =>
      match badFloat v with
      | Some l => Err (UnmarshalTypeError ("number " +:+ l) Struct Field "float64")
      | None => Ok elems
      end
  | _ => Err (UnmarshalTypeError (kind v) Struct Field "[]interface {}")
  end.

Fixpoint members {A} (store : A -> string * value -> result A)
  (ms : list (string * value)) (cur : A) : result A :=
  match ms with
  | [] => Ok cur
  | m :: ms' => cur' ← store cur m; members store ms' cur'
  end.

Definition storeSolutionField (cur : Sol.t) (m : string * value) : result Sol.t :=
  let '(key, v) := m in
  if selects key "response" then
    s ← storeString "" "solution.response" v (Sol.Response cur);
    Ok (Sol.mk s (Sol.Status cur) (Sol.Cookies cur) (Sol.UserAgent cur))
  else if selects key "status" then
    n ← storeInt "" "solution.status" v (Sol.Status cur);
    Ok (Sol.mk (Sol.Response cur) n (Sol.Cookies cur) (Sol.UserAgent cur))
  else if selects key "cookies" then
    c ← storeSlice "" "solution.cookies" v (Sol.Cookies cur);
    Ok (Sol.mk (Sol.Response cur) (Sol.Status cur) c (Sol.UserAgent cur))
  else if selects key "userAgent" then
    s ← storeString "" "solution.userAgent" v (Sol.UserAgent cur);
    Ok (Sol.mk (Sol.Response cur) (Sol.Status cur) (Sol.Cookies cur) s)
  else Ok cur.

Definition storeSolution (v : value) (cur : Sol.t) : result Sol.t :=
  match v with
  | JNull => Ok cur
  | JObject ms => members storeSolutionField ms cur
  | _ => Err (UnmarshalTypeError (kind v) "FlareSolverrResponse" "solution" solutionType)
  end.

Definition storeResponseField (cur : FlareSolverrResponse) (m : string * value)
  : result FlareSolverrResponse :=
  let '(key, v) := m in
  if selects key "solution" then
    s ← storeSolution v (Solution cur);
    Ok {| Solution := s; Status := Status cur; Message := Message cur |}
  else if selects key "status" then
    s ← storeString "FlareSolverrResponse" "status" v (Status cur);
    Ok {| Solution := Solution cur; Status := s; Message := Message cur |}
  else if selects key "message" then
    s ← storeString "FlareSolverrResponse" "message" v (Message cur);
    Ok {| Solution := Solution cur; Status := Status cur; Message := s |}
  else Ok cur.

End decode.

(** [json.Unmarshal(body, &flareResponse)] with [flareResponse] freshly
    declared, hence zero. *)
Definition Unmarshal (body : data) : result FlareSolverrResponse :=
  match body with
  | Invalid complaint => Err (SyntaxError complaint)
  | Document JNull => Ok zeroResponse
  | Document (JObject ms) => decode.members decode.storeResponseField ms zeroResponse
  | Document v => Err (UnmarshalTypeError (kind v) "" "" decode.responseType)
  end.

Definition Unmarshal_error (body : data) : option error :=
  match Unmarshal body with
  | Ok _ => None
  | Err err => Some err
  end.

Definition intLit (lit : string) (z : Z) : value :=
  JNumber {| literal := lit; int64 := Some z; float64 := true |}.

(** ** Package [net/http], as far as [main.go] uses it *)

(** What the adapter writes or sends, kept symbolic where a library
    serialises a Go value. *)
Inductive bytes :=
| OfString (s : string)
| Marshalled (v : FlareSolverrRequest)
| EncodedLine (m : gmap string string).

(** [json.Marshal(requestData)]: a struct of two strings and an int always
    marshals. *)
Definition json_Marshal (v : FlareSolverrRequest) : result bytes := Ok (Marshalled v).

Module http.

Definition MethodGet : string := "GET".
Definition MethodPost : string := "POST".
Definition MethodConnect : string := "CONNECT".

Definition StatusOK : nat := 200.
Definition StatusBadRequest : nat := 400.
Definition StatusMethodNotAllowed : nat := 405.
Definition StatusInternalServerError : nat := 500.

(** The inbound request as the handlers read it: [r.Method], [r.URL.Path],
    [r.URL.RawQuery], and the text [r.URL.String()] renders. *)
Record Request := {
  Method : string;
  URL_Path : string;
  URL_RawQuery : string;
  URL_String : string
}.

(** The request [http.NewRequest] builds for the upstream. *)
Record ClientRequest := {
  ReqMethod : string;
  ReqURL : string;
  ReqHeader : gmap string (list string);
  ReqBody : bytes
}.

(** The upstream's answer: [io.ReadAll(resp.Body)] either fails or gives
    the body. *)
Record Response := {
  ReadAll : result data
}.

(** A response recorder: the header map, the status code once written,
    and the chunks written to the body, oldest first. *)
Record ResponseWriter := {
  Header : gmap string (list string);
  Code : option nat;
  Body : list bytes
}.

Definition NewRecorder : ResponseWriter :=
  {| Header := ∅; Code := None; Body := [] |}.

(** [w.Header().Set(key, value)], for a key in canonical form. *)
Definition Header_Set (key value : string) (w : ResponseWriter) : ResponseWriter :=
  {| Header := <[key := [value]]> (Header w); Code := Code w; Body := Body w |}.

(** [w.WriteHeader(code)]: only the first call counts. *)
Definition WriteHeader (code : nat) (w : ResponseWriter) : ResponseWriter :=
  match Code w with
  | Some _ => w
  | None => {| Header := Header w; Code := Some code; Body := Body w |}
  end.

(** [w.Write(b)]: writes status 200 first when none was written. *)
Definition Write (b : bytes) (w : ResponseWriter) : ResponseWriter :=
  let w' := WriteHeader StatusOK w in
  {| Header := Header w'; Code := Code w'; Body := Body w' ++ [b] |}.

Definition newline : string := String (ascii_of_nat 10) EmptyString.

(** [http.Error(w, error, code)] *)
Definition Error (error : string) (code : nat) (w : ResponseWriter) : ResponseWriter :=
  let w := Header_Set "Content-Type" "text/plain; charset=utf-8" w in
  let w := Header_Set "X-Content-Type-Options" "nosniff" w in
  let w := WriteHeader code w in
  Write (OfString (error +:+ newline)) w.

Definition Get (key : string) (w : ResponseWriter) : string :=
  match Header w !! key with
  | Some (v :: _) => v
  | _ => ""
  end.

End http.

(** ** The environment of a handler *)

(** [url_Parse] is the error of [net/url.Parse], if any; [client_Do] is
    the transport: what [client.Do] returns for a request, given the
    requests sent before it. *)
Record Env := {
  url_Parse : string -> option error;
  client_Do : list http.ClientRequest -> http.ClientRequest -> result http.Response
}.

(** What a handler changes: the response writer [w], the requests sent
    upstream so far, and the lines handed to [log.Printf]. *)
Record World := {
  w : http.ResponseWriter;
  upstream : list http.ClientRequest;
  logged : list string
}.

Definition initial : World :=
  {| w := http.NewRecorder; upstream := []; logged := [] |}.

Definition on_w (f : http.ResponseWriter -> http.ResponseWriter) (st : World) : World :=
  {| w := f (w st); upstream := upstream st; logged := logged st |}.

Definition log_Printf (line : string) (st : World) : World :=
  {| w := w st; upstream := upstream st; logged := logged st ++ [line] |}.

(** [http.NewRequest(method, url, body)] for a valid method. *)
Definition http_NewRequest (env : Env) (method url : string) (body : bytes)
  : result http.ClientRequest :=
  match url_Parse env url with
  | Some err => Err err
  | None => Ok {| http.ReqMethod := method; http.ReqURL := url;
                  http.ReqHeader := ∅; http.ReqBody := body |}
  end.

(** [req.Header.Set(key, value)] *)
Definition req_Header_Set (key value : string) (req : http.ClientRequest)
  : http.ClientRequest :=
  {| http.ReqMethod := http.ReqMethod req; http.ReqURL := http.ReqURL req;
     http.ReqHeader := <[key := [value]]> (http.ReqHeader req);
     http.ReqBody := http.ReqBody req |}.

(** [client.Do(req)]: the request goes out and is recorded. *)
Definition Do (env : Env) (req : http.ClientRequest) (st : World)
  : result http.Response * World :=
  (client_Do env (upstream st) req,
   {| w := w st; upstream := upstream st ++ [req]; logged := logged st |}).

(** ** [main.go] *)

Definition defaultFlareSolverrURL : string := "http://flaresolverr:8191/v1".

(** *** [ProxyHandler] *)

Module ProxyHandler.

(** The field [client] is left out: the one [http.Client] of a handler is
    the transport [client_Do] of the environment. *)
Record t := {
  flareSolverrURL : string
}.

Definition sendError (p : t) (message : string) (st : World) : World :=
  let st := log_Printf ("Error: " +:+ message) st in
  let st := on_w (http.Header_Set "Content-Type" "application/json") st in
  let st := on_w (http.WriteHeader http.StatusInternalServerError) st in
  on_w (http.Write (EncodedLine {[ "error" := message ]})) st.

Definition connectMessage : string :=
  "CONNECT method is not supported. This is an HTTP-only proxy adapter for FlareSolverr. "
  +:+ "Please use HTTP URLs (e.g., http://example.com) even for HTTPS sites. "
  +:+ "The proxy will automatically handle HTTPS conversion when communicating with FlareSolverr.".

Definition sendConnectError (p : t) (st : World) : World :=
  let message := connectMessage in
  let st := log_Printf ("CONNECT rejected: " +:+ message) st in
  let st := on_w (http.Header_Set "Content-Type" "text/plain; charset=utf-8") st in
  let st := on_w (http.WriteHeader http.StatusMethodNotAllowed) st in
  on_w (http.Write (OfString message)) st.

Definition handleRequest (p : t) (env : Env) (r : http.Request) (st : World) : World :=
  let url := http.URL_String r in
  let url := Replace1 url "http://" "https://" in
  let requestData := {| Cmd := "request.get"; URL := url; MaxTimeout := 60000 |} in
  match json_Marshal requestData with
  | Err err => sendError p ("Failed to marshal request: " +:+ Error err) st
  | Ok jsonData =>
  match http_NewRequest env "POST" (flareSolverrURL p) jsonData with
  | Err err => sendError p ("Failed to create request: " +:+ Error err) st
  | Ok req =>
  let req := req_Header_Set "Content-Type" "application/json" req in
  match Do env req st with
  | (Err err, st) => sendError p ("Failed to connect to FlareSolverr: " +:+ Error err) st
  | (Ok resp, st) =>
  match http.ReadAll resp with
  | Err err => sendError p ("Failed to read response: " +:+ Error err) st
  | Ok body =>
  match Unmarshal body with
  | Err err => sendError p ("Failed to parse response: " +:+ Error err) st
  | Ok flareResponse =>
  if bool_decide (Status flareResponse ≠ "ok") then
    sendError p ("FlareSolverr error: " +:+ Message flareResponse) st
  else
    let st := on_w (http.Header_Set "Content-Type" "text/html; charset=utf-8") st in
    let st := on_w (http.WriteHeader http.StatusOK) st in
    on_w (http.Write (OfString (Sol.Response (Solution flareResponse)))) st
  end end end end end.

Definition ServeHTTP (p : t) (env : Env) (r : http.Request) (st : World) : World :=
  if bool_decide (http.Method r = http.MethodGet) then handleRequest p env r st
  else if bool_decide (http.Method r = http.MethodConnect) then sendConnectError p st
  else on_w (http.Error "Method not allowed" http.StatusMethodNotAllowed) st.

End ProxyHandler.

(** [NewProxyHandler], with [getenv] standing for [os.Getenv]. *)
Definition NewProxyHandler (getenv : string -> string) : ProxyHandler.t :=
  let flareSolverrURL := getenv "FLARESOLVERR_URL" in
  let flareSolverrURL :=
    if bool_decide (flareSolverrURL = "") then defaultFlareSolverrURL else flareSolverrURL in
  {| ProxyHandler.flareSolverrURL := flareSolverrURL |}.

(** *** [DirectHandler] *)

Module DirectHandler.

(** As for [ProxyHandler], the field [client] is the transport of the
    environment. *)
Record t := {
  flareSolverrURL : string
}.

Definition sendError (d : t) (message : string) (st : World) : World :=
  let st := log_Printf ("Error: " +:+ message) st in
  let st := on_w (http.Header_Set "Content-Type" "application/json") st in
  let st := on_w (http.WriteHeader http.StatusInternalServerError) st in
  on_w (http.Write (EncodedLine {[ "error" := message ]})) st.

(** The number of further attempts a target can still cause: the self-call
    of [forwardToFlareSolverr] happens only on an [https://] target and
    hands over a target that no longer is one. *)
Definition retries (targetURL : string) : nat :=
  if HasPrefix targetURL "https://" then 1 else 0.

Definition inspect {A} (a : A) : {b : A | a = b} := exist _ a eq_refl.

Equations forwardToFlareSolverr (d : t) (env : Env) (targetURL cmd : string)
  (st : World) : World by wf (retries targetURL) lt :=
forwardToFlareSolverr d env targetURL cmd st
  with json_Marshal {| Cmd := cmd; URL := targetURL; MaxTimeout := 60000 |} := {
  | Err err => sendError d ("Failed to marshal request: " +:+ Error err) st
  | Ok jsonData
      with http_NewRequest env "POST" (flareSolverrURL d) jsonData := {
    | Err err => sendError d ("Failed to create request: " +:+ Error err) st
    | Ok req
        with Do env (req_Header_Set "Content-Type" "application/json" req) st := {
      | (Err err, st1) =>
          sendError d ("Failed to connect to FlareSolverr: " +:+ Error err) st1
      | (Ok resp, st1) with http.ReadAll resp := {
        | Err err => sendError d ("Failed to read response: " +:+ Error err) st1
        | Ok body with Unmarshal body := {
          | Err err => sendError d ("Failed to parse response: " +:+ Error err) st1
          | Ok flareResponse with bool_decide (Status flareResponse ≠ "ok") := {
            | false =>
                let st2 := on_w (http.Header_Set "Content-Type" "text/html; charset=utf-8") st1 in
                let st2 := on_w (http.WriteHeader http.StatusOK) st2 in
                on_w (http.Write (OfString (Sol.Response (Solution flareResponse)))) st2
            | true with inspect (HasPrefix targetURL "https://") := {
              | exist _ true isHTTPS =>
                  let httpURL := Replace1 targetURL "https://" "http://" in
                  let st2 :=
                    log_Printf ("HTTPS failed, trying HTTP fallback for: " +:+ httpURL)
                      st1 in
                  forwardToFlareSolverr d env httpURL cmd st2
              | exist _ false _ =>
                  sendError d ("FlareSolverr error: " +:+ Message flareResponse) st1
              }
            }
          }
        }
      }
    }
  }.
Next Obligation.
  change (HasPrefix targetURL "https://" = true) in isHTTPS.
  change (retries (Replace1 targetURL "https://" "http://") < retries targetURL)%nat.
  assert (Replace1 targetURL "https://" "http://"
          = "http://" +:+ slice_from 8 targetURL) as ->
    by (destruct targetURL; cbn [Replace1]; rewrite isHTTPS; reflexivity).
  unfold retries. rewrite isHTTPS.
  change (HasPrefix ("http://" +:+ slice_from 8 targetURL) "https://") with false.
  cbv iota. lia.
Qed.

Definition invalidURLFormat : string :=
  "Invalid URL format. Use: http://localhost:PORT/domain.com/path".

Definition ServeHTTP (d : t) (env : Env) (r : http.Request) (st : World) : World :=
  let path := http.URL_Path r in
  if bool_decide (path = "/") || bool_decide (path = "") then
    on_w (http.Error invalidURLFormat http.StatusBadRequest) st
  else
  (* path is not empty here, so path[0] is in range *)
  let path :=
    match path with
    | String c _ => if bool_decide (c = "/"%char) then slice_from 1 path else path
    | EmptyString => path
    end in
  let parts := SplitN path "/" 2 in
  match parts with
  | [] => on_w (http.Error invalidURLFormat http.StatusBadRequest) st
  | domain :: rest =>
  let remainingPath :=
    match rest with
    | part1 :: _ => "/" +:+ part1
    | [] => ""
    end in
  let remainingPath :=
    if bool_decide (http.URL_RawQuery r ≠ "")
    then remainingPath +:+ "?" +:+ http.URL_RawQuery r
    else remainingPath in
  let targetURL := "https://" +:+ domain +:+ remainingPath in
  let '(cmd, st) :=
    if bool_decide (http.Method r = http.MethodGet) then ("request.get", st)
    else if bool_decide (http.Method r = http.MethodPost) then ("request.post", st)
    else ("request.get",
          log_Printf ("Warning: HTTP method " +:+ http.Method r
                      +:+ " may not be fully supported by FlareSolverr, using request.get") st) in
  forwardToFlareSolverr d env targetURL cmd st
  end.

End DirectHandler.

(** [NewDirectHandler], with [getenv] standing for [os.Getenv]. *)
Definition NewDirectHandler (getenv : string -> string) : DirectHandler.t :=
  let flareSolverrURL := getenv "FLARESOLVERR_URL" in
  let flareSolverrURL :=
    if bool_decide (flareSolverrURL = "") then defaultFlareSolverrURL else flareSolverrURL in
  {| DirectHandler.flareSolverrURL := flareSolverrURL |}.

(** ** Test doubles *)

Module stub.

Definition replyOf (v : value) : result http.Response :=
  Ok {| http.ReadAll := Ok (Document v) |}.

(** A successful reply; [status] is the status the target site gave, for
    instance [intLit "404" 404]. *)
Definition okReply (html : string) (status : value) : value :=
  JObject [("status", JString "ok"); ("message", JString "");
           ("solution", JObject [("response", JString html); ("status", status)])].

Definition errorReply (message : string) : value :=
  JObject [("status", JString "error"); ("message", JString message)].

(** An upstream that gives the same answer to every request. *)
Definition always (reply : result http.Response) : Env :=
  {| url_Parse := fun _ => None; client_Do := fun _ _ => reply |}.

(** An upstream that answers the requests it receives one after the other
    from a script, and [last] once the script is used up. *)
Definition scripted (script : list (result http.Response)) (last : result http.Response)
  : Env :=
  {| url_Parse := fun _ => None;
     client_Do := fun before _ => default last (script !! length before) |}.

(** A direct-mode request: origin-form target [path?query]. *)
Definition request (method path query : string) : http.Request :=
  {| http.Method := method; http.URL_Path := path; http.URL_RawQuery := query;
     http.URL_String := if bool_decide (query = "") then path else path +:+ "?" +:+ query |}.

Definition get (path query : string) : http.Request := request "GET" path query.

(** A proxy-mode request: absolute-form target [scheme://host path?query]. *)
Definition proxied (method scheme host path query : string) : http.Request :=
  {| http.Method := method; http.URL_Path := path; http.URL_RawQuery := query;
     http.URL_String :=
       scheme +:+ "://" +:+ host +:+ path
         +:+ (if bool_decide (query = "") then "" else "?" +:+ query) |}.

(** The page of the repository's own handler test. *)
Definition page : string := "<html><body>Test HTML Response</body></html>".

(** An upstream that solves every request. *)
Definition solving : Env := always (replyOf (okReply page (intLit "200" 200))).

(** An upstream that reports a failure for the first request it gets and
    solves the following ones, the target site answering 404. *)
Definition httpOnly : Env :=
  scripted [replyOf (errorReply "blocked")] (replyOf (okReply page (intLit "404" 404))).

Definition direct : DirectHandler.t :=
  {| DirectHandler.flareSolverrURL := defaultFlareSolverrURL |}.

Definition proxy : ProxyHandler.t :=
  {| ProxyHandler.flareSolverrURL := defaultFlareSolverrURL |}.

End stub.

(** ** Vocabulary of the properties *)

(** Serving one request with a fresh response writer. *)
Definition serveDirect (d : DirectHandler.t) (env : Env) (r : http.Request) : World :=
  DirectHandler.ServeHTTP d env r initial.

Definition serveProxy (p : ProxyHandler.t) (env : Env) (r : http.Request) : World :=
  ProxyHandler.ServeHTTP p env r initial.

(** The upstream command for [targetURL] and [cmd], as it leaves for the
    base URL [base]. *)
Definition command (base targetURL cmd : string) : http.ClientRequest :=
  {| http.ReqMethod := "POST";
     http.ReqURL := base;
     http.ReqHeader := {[ "Content-Type" := ["application/json"] ]};
     http.ReqBody := Marshalled {| Cmd := cmd; URL := targetURL; MaxTimeout := 60000 |} |}.

(** The upstream's answer [x] is a well-formed body that decodes to [r]. *)
Definition wellFormed (x : result http.Response) (r : FlareSolverrResponse) : Prop :=
  exists resp body, x = Ok resp /\ http.ReadAll resp = Ok body /\ Unmarshal body = Ok r.

(** The upstream-side failures and the message each one hands to
    [sendError]. *)
Inductive Failure : result http.Response -> string -> Prop :=
| TransportError err :
    Failure (Err err) ("Failed to connect to FlareSolverr: " +:+ Error err)
| UnreadableBody resp err :
    http.ReadAll resp = Err err ->
    Failure (Ok resp) ("Failed to read response: " +:+ Error err)
| MalformedBody resp body err :
    http.ReadAll resp = Ok body -> Unmarshal body = Err err ->
    Failure (Ok resp) ("Failed to parse response: " +:+ Error err)
| ReportedFailure resp body r :
    http.ReadAll resp = Ok body -> Unmarshal body = Ok r -> Status r ≠ "ok" ->
    Failure (Ok resp) ("FlareSolverr error: " +:+ Message r).

(** The upstream reported a failure: well-formed, status other than "ok". *)
Definition reported (x : result http.Response) : Prop :=
  exists r, wellFormed x r /\ Status r ≠ "ok".

(** The client is answered with the JSON error [message] and status 500. *)
Definition respondsError (message : string) (st : World) : Prop :=
  http.Code (w st) = Some 500%nat
  /\ http.Get "Content-Type" (w st) = "application/json"
  /\ http.Body (w st) = [EncodedLine {[ "error" := message ]}].

(** The client is answered with the page [html] and status 200. *)
Definition respondsPage (html : string) (st : World) : Prop :=
  http.Code (w st) = Some 200%nat
  /\ http.Get "Content-Type" (w st) = "text/html; charset=utf-8"
  /\ http.Body (w st) = [OfString html].

(** The common body of the two [sendError] methods. *)
Definition writeError (message : string) (st : World) : World :=
  let st := log_Printf ("Error: " +:+ message) st in
  let st := on_w (http.Header_Set "Content-Type" "application/json") st in
  let st := on_w (http.WriteHeader http.StatusInternalServerError) st in
  on_w (http.Write (EncodedLine {[ "error" := message ]})) st.

(** The common success tail of [handleRequest] and
    [forwardToFlareSolverr]. *)
Definition writePage (html : string) (st : World) : World :=
  let st := on_w (http.Header_Set "Content-Type" "text/html; charset=utf-8") st in
  let st := on_w (http.WriteHeader http.StatusOK) st in
  on_w (http.Write (OfString html)) st.

(** What both handlers do with the answer [x] of an attempt after which
    no further attempt follows. *)
Definition conclude (x : result http.Response) (st : World) : World :=
  match x with
  | Err err => writeError ("Failed to connect to FlareSolverr: " +:+ Error err) st
  | Ok resp =>
      match http.ReadAll resp with
      | Err err => writeError ("Failed to read response: " +:+ Error err) st
      | Ok body =>
          match Unmarshal body with
          | Err err => writeError ("Failed to parse response: " +:+ Error err) st
          | Ok r =>
              if bool_decide (Status r ≠ "ok")
              then writeError ("FlareSolverr error: " +:+ Message r) st
              else writePage (Sol.Response (Solution r)) st
          end
      end
  end.

(** Boolean form of [reported]. *)
Definition reportedb (x : result http.Response) : bool :=
  match x with
  | Ok resp =>
      match http.ReadAll resp with
      | Ok body =>
          match Unmarshal body with
          | Ok r => bool_decide (Status r ≠ "ok")
          | Err _ => false
          end
      | Err _ => false
      end
  | Err _ => false
  end.

(** The state after [req] went upstream. *)
Definition sent (req : http.ClientRequest) (st : World) : World :=
  {| w := w st; upstream := upstream st ++ [req]; logged := logged st |}.

(** The path with one leading slash removed. *)
Definition trimmed (path : string) : string :=
  match path with
  | String c _ => if bool_decide (c = "/"%char) then slice_from 1 path else path
  | EmptyString => path
  end.

(** The command name [DirectHandler.ServeHTTP] picks for a method. *)
Definition chosen (method : string) : string :=
  if bool_decide (method = "GET") then "request.get"
  else if bool_decide (method = "POST") then "request.post"
  else "request.get".

(** The state after the warning it logs for a method other than GET and
    POST. *)
Definition warned (method : string) (st : World) : World :=
  if bool_decide (method = "GET") || bool_decide (method = "POST") then st
  else log_Printf ("Warning: HTTP method " +:+ method
                   +:+ " may not be fully supported by FlareSolverr, using request.get") st.

(** The query as appended to the remaining path. *)
Definition queryPart (q : string) : string :=
  if bool_decide (q = "") then "" else "?" +:+ q.

(** Domain, remaining path and query, as the target URL strings them
    together after the scheme: the text before the first slash of the
    trimmed path is the domain, the slash and what follows it the
    remaining path. *)
Definition hostAndPath (r : http.Request) : string :=
  let path := trimmed (http.URL_Path r) in
  match Index path "/" with
  | None => path +:+ queryPart (http.URL_RawQuery r)
  | Some m =>
      slice_to m path +:+ ("/" +:+ slice_from (m + 1) path)
        +:+ queryPart (http.URL_RawQuery r)
  end.

(** The two implementations of [http.Handler] in [main.go]. *)
Inductive Handler :=
| Proxy (p : ProxyHandler.t)
| Direct (d : DirectHandler.t).

Definition serve (h : Handler) (env : Env) (r : http.Request) : World :=
  match h with
  | Proxy p => serveProxy p env r
  | Direct d => serveDirect d env r
  end.

(** The command names of the requests sent upstream. *)
Definition commandNames (st : World) : list string :=
  (fun c => match http.ReqBody c with
            | Marshalled v => Cmd v
            | _ => ""
            end) <$> upstream st.

(** ** Either handler, and the mock upstream of [main_test.go] *)

(** The field [flareSolverrURL] of either handler. *)
Definition baseURL (h : Handler) : string :=
  match h with
  | Proxy p => ProxyHandler.flareSolverrURL p
  | Direct d => DirectHandler.flareSolverrURL d
  end.

(** *** The mock FlareSolverr of [TestProxyHandler_ServeHTTP] *)
Module test.

Definition html : string := "<html><body>Test HTML Response</body></html>".

(** The response the mock builds for a URL that contains "error-test". *)
Definition errorResponse : FlareSolverrResponse :=
  {| Solution := Sol.zero; Status := "error"; Message := "Test error message" |}.

(** The response the mock builds for every other URL. *)
Definition okResponse : FlareSolverrResponse :=
  {| Solution := Sol.mk html 200 [] ""; Status := "ok"; Message := "" |}.

(** The document [json.NewEncoder(w).Encode(response)] writes for
    [errorResponse]: every field of the struct in its order and under its
    tag, the zero values written out and the nil Cookies as null. *)
Definition errorBody : value :=
  JObject
    [("solution",
      JObject [("response", JString ""); ("status", intLit "0" 0);
               ("cookies", JNull); ("userAgent", JString "")]);
     ("status", JString "error");
     ("message", JString "Test error message")].

(** The document it writes for [okResponse]. In the text the angle
    brackets of the page are escaped, which a decoder undoes; the document
    holds the page itself. *)
Definition okBody : value :=
  JObject
    [("solution",
      JObject [("response", JString html); ("status", intLit "200" 200);
               ("cookies", JNull); ("userAgent", JString "")]);
     ("status", JString "ok");
     ("message", JString "")].

(** The handler of the mock server: it decodes the command it is sent and
    answers with an error when the command's URL contains "error-test". *)
Definition mockServer : Env :=
  {| url_Parse := fun _ => None;
     client_Do := fun _ req =>
       let req :=
         match http.ReqBody req with
         | Marshalled v => v
         | _ => {| Cmd := ""; URL := ""; MaxTimeout := 0 |}
         end in
       if Contains (URL req) "error-test"
       then Ok {| http.ReadAll := Ok (Document errorBody) |}
       else Ok {| http.ReadAll := Ok (Document okBody) |} |}.

End test.

(** ** The outcomes of a request *)

(** Whether a request gets past the local checks of its handler. *)
Definition forwarded (h : Handler) (r : http.Request) : Prop :=
  match h with
  | Proxy _ => http.Method r = "GET"
  | Direct _ => http.URL_Path r ≠ "/" /\ http.URL_Path r ≠ ""
  end.

(** The state in which the first attempt starts. *)
Definition ready (h : Handler) (r : http.Request) : World :=
  match h with
  | Proxy _ => initial
  | Direct _ => warned (http.Method r) initial
  end.

(** The first command a forwarded request sends. *)
Definition firstCommand (h : Handler) (r : http.Request) : http.ClientRequest :=
  match h with
  | Proxy p =>
      command (ProxyHandler.flareSolverrURL p)
        (Replace1 (http.URL_String r) "http://" "https://") "request.get"
  | Direct d =>
      command (DirectHandler.flareSolverrURL d) ("https://" +:+ hostAndPath r)
        (chosen (http.Method r))
  end.

(** The ways a request can be served, with the state each one ends in. *)
Inductive Outcome (h : Handler) (env : Env) (r : http.Request) : World -> Prop :=
| BadPath d :
    h = Direct d -> http.URL_Path r = "/" \/ http.URL_Path r = "" ->
    Outcome h env r (on_w (http.Error DirectHandler.invalidURLFormat 400) initial)
| ConnectRejected p :
    h = Proxy p -> http.Method r = "CONNECT" ->
    Outcome h env r (ProxyHandler.sendConnectError p initial)
| MethodRejected p :
    h = Proxy p -> http.Method r ≠ "GET" -> http.Method r ≠ "CONNECT" ->
    Outcome h env r (on_w (http.Error "Method not allowed" 405) initial)
| NoRequest err :
    forwarded h r -> url_Parse env (baseURL h) = Some err ->
    Outcome h env r (writeError ("Failed to create request: " +:+ Error err) (ready h r))
| OneAttempt :
    forwarded h r -> url_Parse env (baseURL h) = None ->
    (forall d, h = Direct d -> ~ reported (client_Do env [] (firstCommand h r))) ->
    Outcome h env r
      (conclude (client_Do env [] (firstCommand h r)) (sent (firstCommand h r) (ready h r)))
| TwoAttempts d :
    h = Direct d -> forwarded h r -> url_Parse env (baseURL h) = None ->
    reported (client_Do env [] (firstCommand h r)) ->
    let c2 := command (DirectHandler.flareSolverrURL d) ("http://" +:+ hostAndPath r)
                (chosen (http.Method r)) in
    Outcome h env r
      (conclude (client_Do env [firstCommand h r] c2)
         (sent c2
            (log_Printf ("HTTPS failed, trying HTTP fallback for: http://" +:+ hostAndPath r)
               (sent (firstCommand h r) (ready h r))))).

(** ** Examples *)

Example SplitN_domain_path :
  SplitN "example.com/a/b" "/" 2 = ["example.com"; "a/b"].
Proof. reflexivity. Qed.

Example SplitN_empty : SplitN "" "/" 2 = [""].
Proof. reflexivity. Qed.

Example Replace1_scheme :
  Replace1 "http://a/?u=http://b" "http://" "https://" = "https://a/?u=http://b".
Proof. reflexivity. Qed.

Example selects_exact : selects "status" "status" = true.
Proof. reflexivity. Qed.

Example selects_folded : selects "Status" "status" = true.
Proof. reflexivity. Qed.

Example selects_other : selects "statuses" "status" = false.
Proof. reflexivity. Qed.

Example Unmarshal_ok :
  Unmarshal (Document (JObject
    [("status", JString "ok"); ("message", JString "");
     ("solution", JObject [("url", JString "https://example.com/");
                           ("status", intLit "404" 404);
                           ("response", JString "<html></html>");
                           ("cookies", JArray []);
                           ("userAgent", JString "Mozilla/5.0")])]))
  = Ok {| Solution := Sol.mk "<html></html>" 404 [] "Mozilla/5.0";
          Status := "ok"; Message := "" |}.
Proof. reflexivity. Qed.

Example Unmarshal_empty_object : Unmarshal (Document (JObject [])) = Ok zeroResponse.
Proof. reflexivity. Qed.

Example Unmarshal_wrong_kind :
  Error <$> Unmarshal_error (Document (JObject [("status", intLit "5" 5)]))
  = Some ("json: cannot unmarshal number into Go struct field "
          +:+ "FlareSolverrResponse.status of type string").
Proof. reflexivity. Qed.

(** ** Auxiliary facts *)

Section Attempts.

Lemma reportedb_spec x : reportedb x = true <-> reported x.
Proof.
  unfold reported, wellFormed, reportedb. split.
  - destruct x as [resp|]; [|discriminate].
    destruct (http.ReadAll resp) as [body|] eqn:Hread; [|discriminate].
    destruct (Unmarshal body) as [r|] eqn:Hdec; [|discriminate].
    intros H%bool_decide_eq_true. eauto 10.
  - intros (r & (resp & body & -> & Hread & Hdec) & Hst).
    rewrite Hread, Hdec. by apply bool_decide_eq_true.
Qed.

Lemma Failure_or_solved x :
  (exists message, Failure x message) \/ (exists r, wellFormed x r /\ Status r = "ok").
Proof.
  destruct x as [resp|err]; [|left; eexists; constructor].
  destruct (http.ReadAll resp) as [body|err] eqn:Hread;
    [|left; eexists; by eapply UnreadableBody].
  destruct (Unmarshal body) as [r|err] eqn:Hdec;
    [|left; eexists; by eapply MalformedBody].
  destruct (decide (Status r = "ok")) as [Hok|Hok].
  - right. exists r. split; [|done]. by exists resp, body.
  - left. eexists. by eapply ReportedFailure.
Qed.

Lemma conclude_Failure x message st :
  Failure x message -> conclude x st = writeError message st.
Proof.
  destruct 1 as [err|resp err Hread|resp body err Hread Hdec|resp body r Hread Hdec Hst];
    cbn [conclude]; rewrite ?Hread, ?Hdec; try reflexivity.
  by rewrite bool_decide_eq_true_2.
Qed.

Lemma conclude_solved x r st :
  wellFormed x r -> Status r = "ok" ->
  conclude x st = writePage (Sol.Response (Solution r)) st.
Proof.
  intros (resp & body & -> & Hread & Hdec) Hok. cbn [conclude].
  rewrite Hread, Hdec, bool_decide_eq_false_2; [done|]. by intros [].
Qed.

Lemma wellFormed_functional x r1 r2 : wellFormed x r1 -> wellFormed x r2 -> r1 = r2.
Proof.
  intros (resp & body & -> & Hread & Hdec) (resp' & body' & [= <-] & Hread' & Hdec').
  congruence.
Qed.

End Attempts.

Section Forwarding.

Lemma http_is_not_https rest : HasPrefix ("http://" +:+ rest) "https://" = false.
Proof. reflexivity. Qed.

Lemma Replace1_prefix s old new :
  HasPrefix s old = true ->
  Replace1 s old new = new +:+ slice_from (String.length old) s.
Proof. intros H. destruct s; cbn [Replace1]; rewrite H; reflexivity. Qed.

Lemma command_built base targetURL cmd :
  req_Header_Set "Content-Type" "application/json"
    {| http.ReqMethod := "POST"; http.ReqURL := base; http.ReqHeader := ∅;
       http.ReqBody := Marshalled {| Cmd := cmd; URL := targetURL; MaxTimeout := 60000 |} |}
  = command base targetURL cmd.
Proof. reflexivity. Qed.

(** One round of [forwardToFlareSolverr]: the request goes out; a reported
    failure on an [https://] target leads to the self-call, anything else
    is concluded at once. *)
Lemma forward_step d env targetURL cmd st :
  url_Parse env (DirectHandler.flareSolverrURL d) = None ->
  DirectHandler.forwardToFlareSolverr d env targetURL cmd st =
    let req := command (DirectHandler.flareSolverrURL d) targetURL cmd in
    let x := client_Do env (upstream st) req in
    if reportedb x && HasPrefix targetURL "https://"
    then
      let httpURL := Replace1 targetURL "https://" "http://" in
      DirectHandler.forwardToFlareSolverr d env httpURL cmd
        (log_Printf ("HTTPS failed, trying HTTP fallback for: " +:+ httpURL) (sent req st))
    else conclude x (sent req st).
Proof.
  intros Hurl. cbv zeta.
  funelim (DirectHandler.forwardToFlareSolverr d env targetURL cmd st);
    try clear Heqcall;
    repeat match goal with
    | H : json_Marshal _ = Err _ |- _ => discriminate H
    | H : json_Marshal _ = Ok _ |- _ => injection H as <-
    | H : http_NewRequest _ _ _ _ = _ |- _ =>
        unfold http_NewRequest in H; rewrite Hurl in H;
        first [discriminate H | injection H as <-]
    | H : forall _ : DirectHandler.t, _ |- _ => clear H
    end;
    rewrite ?command_built in *;
    unfold reportedb, conclude;
    repeat match goal with
    | H : client_Do _ _ _ = _ |- _ => rewrite H; clear H
    | H : http.ReadAll _ = _ |- _ => rewrite H; clear H
    | H : Unmarshal _ = _ |- _ => rewrite H; clear H
    | H : bool_decide _ = _ |- _ => rewrite H; clear H
    | H : HasPrefix _ _ = _ |- _ => progress rewrite H
    end; try reflexivity.
Qed.

(** When the base URL does not parse, nothing is sent. *)
Lemma forward_no_request d env targetURL cmd st err :
  url_Parse env (DirectHandler.flareSolverrURL d) = Some err ->
  DirectHandler.forwardToFlareSolverr d env targetURL cmd st =
    writeError ("Failed to create request: " +:+ Error err) st.
Proof.
  intros Hurl.
  funelim (DirectHandler.forwardToFlareSolverr d env targetURL cmd st);
    try clear Heqcall;
    repeat match goal with
    | H : json_Marshal _ = Err _ |- _ => discriminate H
    | H : json_Marshal _ = Ok _ |- _ => injection H as <-
    | H : http_NewRequest _ _ _ _ = _ |- _ =>
        unfold http_NewRequest in H; rewrite Hurl in H;
        first [discriminate H | injection H as <-]
    end.
  reflexivity.
Qed.

(** The whole of [forwardToFlareSolverr]: at most two attempts. *)
Lemma forward_attempts d env targetURL cmd st :
  url_Parse env (DirectHandler.flareSolverrURL d) = None ->
  DirectHandler.forwardToFlareSolverr d env targetURL cmd st =
    let base := DirectHandler.flareSolverrURL d in
    let c1 := command base targetURL cmd in
    let x1 := client_Do env (upstream st) c1 in
    if reportedb x1 && HasPrefix targetURL "https://"
    then
      let httpURL := Replace1 targetURL "https://" "http://" in
      let c2 := command base httpURL cmd in
      let x2 := client_Do env (upstream st ++ [c1]) c2 in
      conclude x2
        (sent c2 (log_Printf ("HTTPS failed, trying HTTP fallback for: " +:+ httpURL)
                    (sent c1 st)))
    else conclude x1 (sent c1 st).
Proof.
  intros Hurl. cbv zeta. rewrite (forward_step _ _ _ _ _ Hurl). cbv zeta.
  destruct (reportedb _ && HasPrefix targetURL "https://") eqn:Hretry; [|reflexivity].
  apply andb_true_iff in Hretry as [_ Hhttps].
  rewrite (forward_step _ _ _ _ _ Hurl). cbv zeta.
  assert (HasPrefix (Replace1 targetURL "https://" "http://") "https://" = false) as ->
    by (rewrite (Replace1_prefix _ _ _ Hhttps);
        apply http_is_not_https).
  rewrite andb_false_r. reflexivity.
Qed.

Lemma Get_Content_Type_set value hdr code body :
  http.Get "Content-Type"
    {| http.Header := <["Content-Type" := [value]]> hdr; http.Code := code;
       http.Body := body |} = value.
Proof. unfold http.Get. cbn [http.Header]. by rewrite lookup_insert_eq. Qed.

Lemma Get_Write key b rw : http.Get key (http.Write b rw) = http.Get key rw.
Proof. unfold http.Get, http.Write, http.WriteHeader. by destruct (http.Code rw). Qed.

Lemma writeError_fresh message st :
  w st = http.NewRecorder ->
  respondsError message (writeError message st)
  /\ upstream (writeError message st) = upstream st
  /\ logged (writeError message st) = (logged st ++ ["Error: " +:+ message])%list.
Proof.
  intros Hw. unfold respondsError, writeError, on_w, log_Printf. cbn.
  rewrite Hw. cbn. rewrite Get_Write, Get_Content_Type_set. done.
Qed.

Lemma writePage_fresh html st :
  w st = http.NewRecorder ->
  respondsPage html (writePage html st)
  /\ upstream (writePage html st) = upstream st
  /\ logged (writePage html st) = logged st.
Proof.
  intros Hw. unfold respondsPage, writePage, on_w. cbn.
  rewrite Hw. cbn. rewrite Get_Write, Get_Content_Type_set. done.
Qed.

Lemma conclude_upstream x st : upstream (conclude x st) = upstream st.
Proof.
  unfold conclude.
  repeat match goal with |- context [match ?e with _ => _ end] => destruct e end;
    reflexivity.
Qed.

End Forwarding.

(** ** The Direct Router, step by step *)

Section DirectRouter.

Lemma app_assoc' (a b c : string) : (a +:+ b) +:+ c = a +:+ b +:+ c.
Proof.
  induction a as [|x a IH]; [reflexivity|].
  change (String x ((a +:+ b) +:+ c) = String x (a +:+ b +:+ c)). by rewrite IH.
Qed.

Lemma app_empty_r (a : string) : a +:+ "" = a.
Proof.
  induction a as [|x a IH]; [reflexivity|].
  change (String x (a +:+ "") = String x a). by rewrite IH.
Qed.

Lemma SplitN_2 s sep :
  SplitN s sep 2 =
    match Index s sep with
    | None => [s]
    | Some m => [slice_to m s; slice_from (m + String.length sep) s]
    end.
Proof. reflexivity. Qed.

Lemma Replace1_https rest :
  Replace1 ("https://" +:+ rest) "https://" "http://" = "http://" +:+ rest.
Proof. by rewrite Replace1_prefix. Qed.

Lemma Replace1_http rest :
  Replace1 ("http://" +:+ rest) "http://" "https://" = "https://" +:+ rest.
Proof. by rewrite Replace1_prefix. Qed.

Lemma HasPrefix_https rest : HasPrefix ("https://" +:+ rest) "https://" = true.
Proof. reflexivity. Qed.

(** A request that passes the path check is forwarded, HTTPS first. *)
Lemma serveDirect_forward d env r :
  http.URL_Path r ≠ "/" -> http.URL_Path r ≠ "" ->
  serveDirect d env r =
    DirectHandler.forwardToFlareSolverr d env ("https://" +:+ hostAndPath r)
      (chosen (http.Method r)) (warned (http.Method r) initial).
Proof.
  intros H1 H2. unfold serveDirect, DirectHandler.ServeHTTP.
  rewrite !bool_decide_eq_false_2 by done. cbn [orb].
  fold (trimmed (http.URL_Path r)). rewrite SplitN_2.
  unfold hostAndPath, chosen, warned, queryPart, http.MethodGet, http.MethodPost.
  destruct (Index (trimmed (http.URL_Path r)) "/") as [m|];
    repeat case_bool_decide; try congruence; cbn [orb];
    rewrite ?app_assoc', ?app_empty_r; reflexivity.
Qed.

Lemma serveDirect_rejected d env r :
  http.URL_Path r = "/" \/ http.URL_Path r = "" ->
  serveDirect d env r =
    on_w (http.Error DirectHandler.invalidURLFormat http.StatusBadRequest) initial.
Proof.
  intros H. unfold serveDirect, DirectHandler.ServeHTTP.
  destruct H as [-> | ->]; reflexivity.
Qed.

Lemma warned_fresh method :
  w (warned method initial) = http.NewRecorder /\ upstream (warned method initial) = [].
Proof. unfold warned. by destruct (_ || _). Qed.

(** The two shapes a forwarded request can take. *)
Lemma serveDirect_attempts d env r :
  http.URL_Path r ≠ "/" -> http.URL_Path r ≠ "" ->
  url_Parse env (DirectHandler.flareSolverrURL d) = None ->
  let base := DirectHandler.flareSolverrURL d in
  let cmd := chosen (http.Method r) in
  let c1 := command base ("https://" +:+ hostAndPath r) cmd in
  let c2 := command base ("http://" +:+ hostAndPath r) cmd in
  let x1 := client_Do env [] c1 in
  let x2 := client_Do env [c1] c2 in
  (reported x1 /\ exists st, w st = http.NewRecorder /\ upstream st = [c1; c2]
                            /\ serveDirect d env r = conclude x2 st)
  \/ (~ reported x1 /\ exists st, w st = http.NewRecorder /\ upstream st = [c1]
                                 /\ serveDirect d env r = conclude x1 st).
Proof.
  intros H1 H2 Hurl. cbv zeta.
  rewrite (serveDirect_forward _ _ _ H1 H2), (forward_attempts _ _ _ _ _ Hurl).
  cbv zeta. destruct (warned_fresh (http.Method r)) as [Hw Hup].
  rewrite Hup, HasPrefix_https, andb_true_r, Replace1_https. cbn [app].
  destruct (reportedb _) eqn:Hrep.
  - left. split; [by apply reportedb_spec|].
    eexists. split; [|split; [|reflexivity]]; cbn; [done|by rewrite Hup].
  - right. split; [rewrite <- reportedb_spec; congruence|].
    eexists. split; [|split; [|reflexivity]]; cbn; [done|by rewrite Hup].
Qed.

(** The state a forwarded request ends in, with what it logged on the
    way: after one attempt, and after the fallback. *)
Lemma serveDirect_single d env r :
  http.URL_Path r ≠ "/" -> http.URL_Path r ≠ "" ->
  url_Parse env (DirectHandler.flareSolverrURL d) = None ->
  let c1 := command (DirectHandler.flareSolverrURL d) ("https://" +:+ hostAndPath r)
              (chosen (http.Method r)) in
  ~ reported (client_Do env [] c1) ->
  serveDirect d env r
  = conclude (client_Do env [] c1) (sent c1 (warned (http.Method r) initial)).
Proof.
  intros H1 H2 Hurl c1 Hrep. subst c1.
  rewrite (serveDirect_forward _ _ _ H1 H2), (forward_attempts _ _ _ _ _ Hurl).
  cbv zeta. destruct (warned_fresh (http.Method r)) as [_ Hup].
  rewrite Hup, HasPrefix_https, andb_true_r.
  destruct (reportedb _) eqn:Hb; [|reflexivity].
  by apply reportedb_spec in Hb.
Qed.

Lemma serveDirect_fallback d env r :
  http.URL_Path r ≠ "/" -> http.URL_Path r ≠ "" ->
  url_Parse env (DirectHandler.flareSolverrURL d) = None ->
  let c1 := command (DirectHandler.flareSolverrURL d) ("https://" +:+ hostAndPath r)
              (chosen (http.Method r)) in
  let c2 := command (DirectHandler.flareSolverrURL d) ("http://" +:+ hostAndPath r)
              (chosen (http.Method r)) in
  reported (client_Do env [] c1) ->
  serveDirect d env r
  = conclude (client_Do env [c1] c2)
      (sent c2
         (log_Printf ("HTTPS failed, trying HTTP fallback for: http://" +:+ hostAndPath r)
            (sent c1 (warned (http.Method r) initial)))).
Proof.
  intros H1 H2 Hurl c1 c2 Hrep. subst c1 c2.
  rewrite (serveDirect_forward _ _ _ H1 H2), (forward_attempts _ _ _ _ _ Hurl).
  cbv zeta. destruct (warned_fresh (http.Method r)) as [_ Hup].
  rewrite Hup, HasPrefix_https, andb_true_r, Replace1_https. cbn [app].
  apply reportedb_spec in Hrep. by rewrite Hrep.
Qed.

Lemma serveDirect_no_request d env r err :
  http.URL_Path r ≠ "/" -> http.URL_Path r ≠ "" ->
  url_Parse env (DirectHandler.flareSolverrURL d) = Some err ->
  serveDirect d env r =
    writeError ("Failed to create request: " +:+ Error err) (warned (http.Method r) initial).
Proof.
  intros H1 H2 Hurl.
  by rewrite (serveDirect_forward _ _ _ H1 H2), (forward_no_request _ _ _ _ _ _ Hurl).
Qed.

(** What is left of a concluded attempt. *)
Lemma conclude_fresh x st :
  w st = http.NewRecorder ->
  upstream (conclude x st) = upstream st
  /\ ((exists message, Failure x message /\ respondsError message (conclude x st))
      \/ (exists r, wellFormed x r /\ Status r = "ok"
                    /\ respondsPage (Sol.Response (Solution r)) (conclude x st))).
Proof.
  intros Hw. split; [apply conclude_upstream|].
  destruct (Failure_or_solved x) as [[message HF]|[r [Hwf Hok]]].
  - left. exists message. split; [done|].
    rewrite (conclude_Failure _ _ _ HF). by apply writeError_fresh.
  - right. exists r. split; [done|]. split; [done|].
    rewrite (conclude_solved _ _ _ Hwf Hok). by apply writePage_fresh.
Qed.

End DirectRouter.

(** ** The Proxy Router, step by step *)

Section ProxyRouter.

Lemma handleRequest_attempt p env r st :
  url_Parse env (ProxyHandler.flareSolverrURL p) = None ->
  let c := command (ProxyHandler.flareSolverrURL p)
             (Replace1 (http.URL_String r) "http://" "https://") "request.get" in
  ProxyHandler.handleRequest p env r st = conclude (client_Do env (upstream st) c) (sent c st).
Proof.
  intros Hurl. cbv zeta. unfold ProxyHandler.handleRequest, json_Marshal, http_NewRequest.
  rewrite Hurl, command_built. unfold Do, conclude.
  repeat match goal with |- context [match ?e with _ => _ end] => destruct e end;
    reflexivity.
Qed.

Lemma handleRequest_no_request p env r st err :
  url_Parse env (ProxyHandler.flareSolverrURL p) = Some err ->
  ProxyHandler.handleRequest p env r st =
    writeError ("Failed to create request: " +:+ Error err) st.
Proof.
  intros Hurl. unfold ProxyHandler.handleRequest, json_Marshal, http_NewRequest.
  by rewrite Hurl.
Qed.

Lemma serveProxy_get p env r :
  http.Method r = "GET" ->
  serveProxy p env r = ProxyHandler.handleRequest p env r initial.
Proof. intros H. unfold serveProxy, ProxyHandler.ServeHTTP. by rewrite H. Qed.

Lemma serveProxy_connect p env r :
  http.Method r = "CONNECT" ->
  serveProxy p env r = ProxyHandler.sendConnectError p initial.
Proof. intros H. unfold serveProxy, ProxyHandler.ServeHTTP. by rewrite H. Qed.

Lemma serveProxy_other p env r :
  http.Method r ≠ "GET" -> http.Method r ≠ "CONNECT" ->
  serveProxy p env r =
    on_w (http.Error "Method not allowed" http.StatusMethodNotAllowed) initial.
Proof.
  intros H1 H2. unfold serveProxy, ProxyHandler.ServeHTTP.
  by rewrite !bool_decide_eq_false_2.
Qed.

End ProxyRouter.

(** ** Either router *)

Section EitherRouter.

(** Serving a request either sends nothing upstream, or ends by concluding
    the last attempt, every attempt before it having been a reported
    failure. *)
Lemma serve_shape h env r :
  upstream (serve h env r) = []
  \/ exists cs c st0,
       upstream (serve h env r) = (cs ++ [c])%list
       /\ w st0 = http.NewRecorder
       /\ serve h env r = conclude (client_Do env cs c) st0
       /\ (forall j c', cs !! j = Some c' -> reported (client_Do env (take j cs) c')).
Proof.
  destruct h as [p|d]; cbn [serve].
  - destruct (decide (http.Method r = "GET")) as [Hget|Hget].
    + rewrite (serveProxy_get _ _ _ Hget).
      destruct (url_Parse env (ProxyHandler.flareSolverrURL p)) as [err|] eqn:Hurl.
      * left. by rewrite (handleRequest_no_request _ _ _ _ _ Hurl).
      * right. rewrite (handleRequest_attempt _ _ _ _ Hurl). cbv zeta.
        eexists [], _, _. split; [by rewrite conclude_upstream|].
        split; [|split; [reflexivity|]]; [done|]. intros j c' Hj. by destruct j.
    + left. destruct (decide (http.Method r = "CONNECT")) as [Hc|Hc].
      * by rewrite (serveProxy_connect _ _ _ Hc).
      * by rewrite (serveProxy_other _ _ _ Hget Hc).
  - destruct (decide (http.URL_Path r = "/")) as [H1|H1];
      [left; rewrite serveDirect_rejected; [done|by left]|].
    destruct (decide (http.URL_Path r = "")) as [H2|H2];
      [left; rewrite serveDirect_rejected; [done|by right]|].
    destruct (url_Parse env (DirectHandler.flareSolverrURL d)) as [err|] eqn:Hurl.
    + left. rewrite (serveDirect_no_request _ _ _ _ H1 H2 Hurl).
      destruct (writeError_fresh ("Failed to create request: " +:+ Error err)
                  (warned (http.Method r) initial)) as (_ & -> & _);
        apply warned_fresh.
    + right.
      destruct (serveDirect_attempts _ _ _ H1 H2 Hurl)
        as [(Hrep & st0 & Hw & Hup & ->)|(Hrep & st0 & Hw & Hup & ->)].
      * eexists [_], _, st0. split; [rewrite conclude_upstream; exact Hup|].
        split; [done|]. split; [done|].
        intros [|[|j]] c' [= <-]. exact Hrep.
      * eexists [], _, st0. split; [rewrite conclude_upstream; exact Hup|].
        split; [done|]. split; [done|]. intros j c' Hj. by destruct j.
Qed.

End EitherRouter.

(** ** The properties *)

(** C1, as stated, fails in both modes: a reply whose body is well-formed
    JSON with the status "ok" and a numeric solution.status that is not an
    integer, such as 404.5, is not relayed. [json.Unmarshal] refuses the
    number for the int field and the client is answered with status 500. *)
Lemma C1_counterexample :
  ~ (forall (p : ProxyHandler.t) (env : Env) (r : http.Request) (html : string)
            (status : number),
       http.Method r = "GET" ->
       url_Parse env (ProxyHandler.flareSolverrURL p) = None ->
       (forall before c,
          client_Do env before c = stub.replyOf (stub.okReply html (JNumber status))) ->
       respondsPage html (serveProxy p env r))
  /\ ~ (forall (d : DirectHandler.t) (env : Env) (r : http.Request) (html : string)
               (status : number),
          http.URL_Path r ≠ "/" -> http.URL_Path r ≠ "" ->
          url_Parse env (DirectHandler.flareSolverrURL d) = None ->
          (forall before c,
             client_Do env before c = stub.replyOf (stub.okReply html (JNumber status))) ->
          respondsPage html (serveDirect d env r)).
Proof.
  split; intros H.
  - specialize (H stub.proxy
                  (stub.always
                     (stub.replyOf
                        (stub.okReply stub.page
                           (JNumber {| literal := "404.5"; int64 := None;
                                       float64 := true |}))))
                  (stub.proxied "GET" "http" "example.com" "" "")
                  stub.page
                  {| literal := "404.5"; int64 := None; float64 := true |}
                  eq_refl eq_refl (fun _ _ => eq_refl)).
    destruct H as [H _]. vm_compute in H. discriminate H.
  - specialize (H stub.direct
                  (stub.always
                     (stub.replyOf
                        (stub.okReply stub.page
                           (JNumber {| literal := "404.5"; int64 := None;
                                       float64 := true |}))))
                  (stub.get "/example.com/a" "")
                  stub.page
                  {| literal := "404.5"; int64 := None; float64 := true |}
                  ltac:(discriminate) ltac:(discriminate) eq_refl (fun _ _ => eq_refl)).
    destruct H as [H _]. vm_compute in H. discriminate H.
Qed.

(** C1, amended: whenever the reply that decides the answer is a body that
    [json.Unmarshal] accepts and whose status is "ok", the client receives
    status 200, Content-Type "text/html; charset=utf-8" and a body equal
    to the reply's solution.response, whatever the integer solution.status
    (and the other fields) of the reply. The deciding reply is the reply
    to the one command of the Proxy Router; in the Direct Router it is the
    reply to the "https://" command or, when that one reported a failure,
    the reply to the "http://" command. Every integer solution.status is
    covered: with it the reply is accepted. *)
Theorem C1_ok_reply_is_relayed (env : Env) (r : http.Request)
    (html : string) (status : Z) (cookies : list value) (userAgent message : string) :
  let reply := {| Solution := Sol.mk html status cookies userAgent;
                  Status := "ok"; Message := message |} in
  (forall p,
     let c := command (ProxyHandler.flareSolverrURL p)
                (Replace1 (http.URL_String r) "http://" "https://") "request.get" in
     http.Method r = "GET" ->
     url_Parse env (ProxyHandler.flareSolverrURL p) = None ->
     wellFormed (client_Do env [] c) reply ->
     respondsPage html (serveProxy p env r))
  /\ (forall d,
        let c1 := command (DirectHandler.flareSolverrURL d) ("https://" +:+ hostAndPath r)
                    (chosen (http.Method r)) in
        let c2 := command (DirectHandler.flareSolverrURL d) ("http://" +:+ hostAndPath r)
                    (chosen (http.Method r)) in
        http.URL_Path r ≠ "/" -> http.URL_Path r ≠ "" ->
        url_Parse env (DirectHandler.flareSolverrURL d) = None ->
        wellFormed (client_Do env [] c1) reply
        \/ (reported (client_Do env [] c1) /\ wellFormed (client_Do env [c1] c2) reply) ->
        respondsPage html (serveDirect d env r))
  /\ (forall lit,
        Unmarshal (Document (stub.okReply html (intLit lit status)))
        = Ok {| Solution := Sol.mk html status [] ""; Status := "ok"; Message := "" |}).
Proof.
  intros reply. split; [|split].
  - intros p c Hget Hurl Hwf.
    rewrite (serveProxy_get _ _ _ Hget), (handleRequest_attempt _ _ _ _ Hurl). cbv zeta.
    cbn [upstream initial]. fold c. rewrite (conclude_solved _ _ _ Hwf eq_refl).
    by apply writePage_fresh.
  - intros d c1 c2 H1 H2 Hurl [Hwf|[Hrep Hwf]].
    + rewrite (serveDirect_single _ _ _ H1 H2 Hurl).
      * fold c1. rewrite (conclude_solved _ _ _ Hwf eq_refl).
        apply writePage_fresh, warned_fresh.
      * fold c1. intros (reply' & Hwf' & Hne).
        by rewrite (wellFormed_functional _ _ _ Hwf' Hwf) in Hne.
    + rewrite (serveDirect_fallback _ _ _ H1 H2 Hurl Hrep).
      fold c1 c2. rewrite (conclude_solved _ _ _ Hwf eq_refl).
      apply writePage_fresh, warned_fresh.
  - intros lit. reflexivity.
Qed.

Lemma C1_witness :
  respondsPage stub.page
    (serveProxy stub.proxy stub.solving (stub.proxied "GET" "http" "example.com" "/a" "q=1"))
  /\ respondsPage stub.page
       (serveDirect stub.direct stub.solving (stub.get "/example.com/a" "q=1"))
  /\ respondsPage stub.page
       (serveDirect stub.direct stub.httpOnly (stub.get "/example.com/a" "q=1")).
Proof.
  split; [|split].
  - apply (proj1 (C1_ok_reply_is_relayed stub.solving
                    (stub.proxied "GET" "http" "example.com" "/a" "q=1")
                    stub.page 200 [] "" "") stub.proxy); [reflexivity|reflexivity|].
    eexists _, _. split; [reflexivity|]. split; reflexivity.
  - apply (proj1 (proj2 (C1_ok_reply_is_relayed stub.solving
                           (stub.get "/example.com/a" "q=1")
                           stub.page 200 [] "" "")) stub.direct);
      [discriminate|discriminate|reflexivity|].
    left. eexists _, _. split; [reflexivity|]. split; reflexivity.
  - apply (proj1 (proj2 (C1_ok_reply_is_relayed stub.httpOnly
                           (stub.get "/example.com/a" "q=1")
                           stub.page 404 [] "" "")) stub.direct);
      [discriminate|discriminate|reflexivity|].
    right. split.
    + exists {| Solution := Sol.zero; Status := "error"; Message := "blocked" |}.
      split; [|discriminate]. eexists _, _. split; [reflexivity|]. split; reflexivity.
    + eexists _, _. split; [reflexivity|]. split; reflexivity.
Defined.

(** C2: in the Direct Router a further upstream call is made if and only
    if the attempt yields a well-formed reply whose status is not "ok" and
    its target begins with "https://"; that call is the only further one,
    it carries the same command and the target with the scheme replaced
    by "http://", its failure (if it fails) is what the client is told,
    and transport errors, unreadable bodies and malformed bodies never
    lead to a further call. Every request that passes the path check of
    the Direct Router is handled in this way, starting from an "https://"
    target. *)
Theorem C2_single_https_to_http_fallback (d : DirectHandler.t) (env : Env)
    (targetURL cmd : string) (st : World) :
  url_Parse env (DirectHandler.flareSolverrURL d) = None ->
  w st = http.NewRecorder ->
  let base := DirectHandler.flareSolverrURL d in
  let st' := DirectHandler.forwardToFlareSolverr d env targetURL cmd st in
  let c1 := command base targetURL cmd in
  let x1 := client_Do env (upstream st) c1 in
  let c2 := command base (Replace1 targetURL "https://" "http://") cmd in
  let x2 := client_Do env (upstream st ++ [c1]) c2 in
  let fallback := reported x1 /\ HasPrefix targetURL "https://" = true in
  (upstream st' = (upstream st ++ [c1; c2])%list <-> fallback)
  /\ (upstream st' = (upstream st ++ [c1])%list <-> ~ fallback)
  /\ (forall rest, targetURL = "https://" +:+ rest ->
        c2 = command base ("http://" +:+ rest) cmd)
  /\ (fallback -> forall message, Failure x2 message -> respondsError message st')
  /\ (forall err, x1 = Err err -> upstream st' = (upstream st ++ [c1])%list)
  /\ (forall resp err, x1 = Ok resp -> http.ReadAll resp = Err err ->
        upstream st' = (upstream st ++ [c1])%list)
  /\ (forall resp body err, x1 = Ok resp -> http.ReadAll resp = Ok body ->
        Unmarshal body = Err err -> upstream st' = (upstream st ++ [c1])%list)
  /\ (forall r, http.URL_Path r ≠ "/" -> http.URL_Path r ≠ "" ->
        exists rest cmd' st0,
          w st0 = http.NewRecorder /\ upstream st0 = []
          /\ DirectHandler.ServeHTTP d env r initial
             = DirectHandler.forwardToFlareSolverr d env ("https://" +:+ rest) cmd' st0).
Proof.
  intros Hurl Hw. cbv zeta.
  assert (Hrouter : forall r, http.URL_Path r ≠ "/" -> http.URL_Path r ≠ "" ->
            exists rest cmd' st0,
              w st0 = http.NewRecorder /\ upstream st0 = []
              /\ DirectHandler.ServeHTTP d env r initial
                 = DirectHandler.forwardToFlareSolverr d env ("https://" +:+ rest) cmd' st0).
  { intros r H1 H2. eexists _, _, _.
    split; [|split; [|exact (serveDirect_forward d env r H1 H2)]];
      apply warned_fresh. }
  rewrite (forward_attempts _ _ _ _ _ Hurl). cbv zeta.
  set (c1 := command _ targetURL cmd).
  set (c2 := command _ (Replace1 _ _ _) cmd).
  set (x1 := client_Do env (upstream st) c1).
  set (x2 := client_Do env (upstream st ++ [c1]) c2).
  assert (Hdiff : (upstream st ++ [c1; c2])%list ≠ (upstream st ++ [c1])%list).
  { intros H%(f_equal length). rewrite !length_app in H. cbn in H. lia. }
  assert (Hcases :
    (reportedb x1 && HasPrefix targetURL "https://" = true
     /\ reported x1 /\ HasPrefix targetURL "https://" = true)
    \/ (reportedb x1 && HasPrefix targetURL "https://" = false
        /\ ~ (reported x1 /\ HasPrefix targetURL "https://" = true))).
  { destruct (reportedb x1 && HasPrefix targetURL "https://") eqn:E.
    - left. apply andb_true_iff in E as [E1 E2]. by rewrite <- reportedb_spec.
    - right. split; [done|]. intros [E1%reportedb_spec E2].
      by rewrite E1, E2 in E. }
  destruct Hcases as [(-> & Hrep & Hhttps)|(-> & Hno)];
    rewrite conclude_upstream; cbn [upstream sent log_Printf].
  - rewrite <- app_assoc. cbn [app].
    split; [done|]. split; [split; [by intros ?%Hdiff|by intros []]|].
    split; [by intros rest ->|].
    split.
    { intros _ message HF. rewrite (conclude_Failure _ _ _ HF).
      by apply writeError_fresh. }
    destruct Hrep as (r & (resp & body & Hx & Hread & Hdec) & Hst).
    split; [intros err Hx'; congruence|].
    split; [intros resp' err Hx' Hread'; congruence|].
    split; [|exact Hrouter].
    intros resp' body' err Hx' Hread' Hdec'. congruence.
  - split; [split; [by intros ?%eq_sym%Hdiff|done]|].
    split; [done|].
    split; [intros rest ->; unfold c2; by rewrite Replace1_https|].
    split; [done|]. by repeat (split; [done|]).
Qed.

Lemma C2_witness :
  upstream (DirectHandler.forwardToFlareSolverr stub.direct
              (stub.always (stub.replyOf (stub.errorReply "blocked")))
              "https://example.com/x" "request.get" initial)
  = [command defaultFlareSolverrURL "https://example.com/x" "request.get";
     command defaultFlareSolverrURL "http://example.com/x" "request.get"].
Proof.
  pose proof (C2_single_https_to_http_fallback stub.direct
                (stub.always (stub.replyOf (stub.errorReply "blocked")))
                "https://example.com/x" "request.get" initial eq_refl eq_refl) as H.
  cbv zeta in H. destruct H as [H _]. apply H. split; [|reflexivity].
  eexists. split.
  - eexists _, _. split; [reflexivity|]. split; [reflexivity|]. vm_compute. reflexivity.
  - discriminate.
Defined.

Lemma serveDirect_commands d env r c :
  c ∈ upstream (serveDirect d env r) ->
  exists targetURL,
    c = command (DirectHandler.flareSolverrURL d) targetURL (chosen (http.Method r)).
Proof.
  intros Hc.
  destruct (decide (http.URL_Path r = "/")) as [H1|H1];
    [rewrite serveDirect_rejected in Hc by (by left); by apply elem_of_nil in Hc|].
  destruct (decide (http.URL_Path r = "")) as [H2|H2];
    [rewrite serveDirect_rejected in Hc by (by right); by apply elem_of_nil in Hc|].
  destruct (url_Parse env (DirectHandler.flareSolverrURL d)) as [err|] eqn:Hurl.
  - rewrite (serveDirect_no_request _ _ _ _ H1 H2 Hurl) in Hc.
    destruct (writeError_fresh ("Failed to create request: " +:+ Error err)
                (warned (http.Method r) initial)) as (_ & Hup & _);
      [apply warned_fresh|].
    rewrite Hup in Hc. destruct (warned_fresh (http.Method r)) as [_ Hup'].
    rewrite Hup' in Hc. by apply elem_of_nil in Hc.
  - destruct (serveDirect_attempts _ _ _ H1 H2 Hurl)
      as [(_ & st0 & _ & Hup & Hst)|(_ & st0 & _ & Hup & Hst)];
      rewrite Hst, conclude_upstream, Hup in Hc;
      repeat (apply elem_of_cons in Hc as [->|Hc]; [by eexists|]);
      by apply elem_of_nil in Hc.
Qed.

(** C3, as stated, fails: for the same path the Direct Router sends one
    command name for GET and another for POST. *)
Lemma C3_counterexample :
  ~ (forall (d : DirectHandler.t) (env : Env) (path query : string),
       commandNames (serveDirect d env (stub.request "GET" path query))
       = commandNames (serveDirect d env (stub.request "POST" path query))).
Proof.
  intros H.
  specialize (H stub.direct stub.solving
                "/example.com/x" "").
  vm_compute in H. discriminate H.
Qed.

(** C3, amended: every upstream command of a direct-mode request carries
    the name "request.get" when the inbound method is GET, "request.post"
    when it is POST, and "request.get" for any other method. *)
Theorem C3_command_follows_method (d : DirectHandler.t) (env : Env) (r : http.Request)
    (c : http.ClientRequest) :
  c ∈ upstream (serveDirect d env r) ->
  exists targetURL name,
    http.ReqBody c = Marshalled {| Cmd := name; URL := targetURL; MaxTimeout := 60000 |}
    /\ (http.Method r = "GET" -> name = "request.get")
    /\ (http.Method r = "POST" -> name = "request.post")
    /\ (http.Method r ≠ "GET" -> http.Method r ≠ "POST" -> name = "request.get").
Proof.
  intros Hc. destruct (serveDirect_commands _ _ _ _ Hc) as [targetURL ->].
  exists targetURL, (chosen (http.Method r)). split; [reflexivity|].
  unfold chosen. repeat split; intros; repeat case_bool_decide; congruence.
Qed.

Lemma C3_witness :
  exists targetURL name,
    http.ReqBody (command defaultFlareSolverrURL "https://example.com/x" "request.post")
    = Marshalled {| Cmd := name; URL := targetURL; MaxTimeout := 60000 |}
    /\ ("POST" = "GET" -> name = "request.get")
    /\ ("POST" = "POST" -> name = "request.post")
    /\ ("POST" ≠ "GET" -> "POST" ≠ "POST" -> name = "request.get").
Proof.
  apply (C3_command_follows_method stub.direct
           stub.solving
           (stub.request "POST" "/example.com/x" "")).
  vm_compute. apply list_elem_of_here.
Defined.

Section MissingFields.



End MissingFields.




Section DomainAndPath.

Lemma Index_cons c s sub :
  Index (String c s) sub = if HasPrefix (String c s) sub then Some 0%nat else S <$> Index s sub.
Proof. reflexivity. Qed.

Lemma HasPrefix_slash c s : HasPrefix (String c s) "/" = bool_decide ("/"%char = c).
Proof. cbn. by rewrite andb_true_r. Qed.

Lemma Index_domain domain rest :
  Index domain "/" = None ->
  Index (domain +:+ "/" +:+ rest) "/" = Some (String.length domain).
Proof.
  induction domain as [|c domain IH]; intros Hno; [reflexivity|].
  change (String c domain +:+ "/" +:+ rest) with (String c (domain +:+ "/" +:+ rest)).
  rewrite Index_cons, HasPrefix_slash in *.
  destruct (bool_decide ("/"%char = c)); [discriminate|].
  destruct (Index domain "/") eqn:E; [discriminate|].
  by rewrite IH.
Qed.

Lemma slice_to_app a b : slice_to (String.length a) (a +:+ b) = a.
Proof.
  induction a as [|c a IH]; [by destruct b|].
  change (String c (slice_to (String.length a) (a +:+ b)) = String c a). by rewrite IH.
Qed.

Lemma slice_from_domain domain rest :
  slice_from (String.length domain + 1) (domain +:+ "/" +:+ rest) = rest.
Proof. induction domain as [|c domain IH]; [reflexivity|]. exact IH. Qed.

Lemma hostAndPath_domain r domain rest :
  http.URL_Path r = "/" +:+ domain +:+ "/" +:+ rest ->
  Index domain "/" = None ->
  hostAndPath r = domain +:+ "/" +:+ rest +:+ queryPart (http.URL_RawQuery r).
Proof.
  intros Hpath Hno. unfold hostAndPath. rewrite Hpath.
  change (trimmed ("/" +:+ domain +:+ "/" +:+ rest)) with (domain +:+ "/" +:+ rest).
  rewrite (Index_domain _ _ Hno), slice_to_app, slice_from_domain.
  by rewrite !app_assoc'.
Qed.

Lemma domain_path_is_valid domain rest :
  "/" +:+ domain +:+ "/" +:+ rest ≠ "/" /\ "/" +:+ domain +:+ "/" +:+ rest ≠ "".
Proof. split; [by destruct domain|discriminate]. Qed.

End DomainAndPath.

(** C5: a direct-mode request with path /<domain>/<rest> and optional
    query <q> makes the adapter issue an HTTP POST to the configured base
    URL, with header Content-Type: application/json and the marshalled
    body {cmd, url, maxTimeout}, where url is "https://" + domain + "/" +
    rest, followed by "?" + q when a query is present, and maxTimeout is
    60000. It is the only request that goes upstream, unless the upstream
    reports a failure for it: then the HTTP fallback of C2 follows, the
    same POST with the scheme of url replaced by "http://". *)
Theorem C5_direct_upstream_command (d : DirectHandler.t) (env : Env) (r : http.Request)
    (domain rest : string) :
  http.URL_Path r = "/" +:+ domain +:+ "/" +:+ rest ->
  Index domain "/" = None ->
  url_Parse env (DirectHandler.flareSolverrURL d) = None ->
  let q := http.URL_RawQuery r in
  let hostPathQuery :=
    domain +:+ "/" +:+ rest +:+ (if bool_decide (q = "") then "" else "?" +:+ q) in
  exists cmd more,
    let first :=
      {| http.ReqMethod := "POST";
         http.ReqURL := DirectHandler.flareSolverrURL d;
         http.ReqHeader := {[ "Content-Type" := ["application/json"] ]};
         http.ReqBody :=
           Marshalled {| Cmd := cmd; URL := "https://" +:+ hostPathQuery;
                         MaxTimeout := 60000 |} |} in
    upstream (serveDirect d env r) = first :: more
    /\ (~ reported (client_Do env [] first) -> more = [])
    /\ (reported (client_Do env [] first) ->
          more = [command (DirectHandler.flareSolverrURL d)
                    ("http://" +:+ hostPathQuery) cmd]).
Proof.
  intros Hpath Hno Hurl. cbv zeta.
  destruct (domain_path_is_valid domain rest) as [H1 H2]. rewrite <- Hpath in H1, H2.
  exists (chosen (http.Method r)).
  fold (queryPart (http.URL_RawQuery r)). rewrite <- (hostAndPath_domain _ _ _ Hpath Hno).
  destruct (serveDirect_attempts _ _ _ H1 H2 Hurl)
    as [(Hrep & st0 & _ & Hup & ->)|(Hrep & st0 & _ & Hup & ->)];
    rewrite conclude_upstream, Hup; eexists; (split; [reflexivity|]); by split.
Qed.

Lemma C5_witness :
  exists cmd more,
    upstream (serveDirect stub.direct stub.solving
                (stub.request "POST" "/example.com/search/all" "q=test&page=1"))
    = {| http.ReqMethod := "POST";
         http.ReqURL := "http://flaresolverr:8191/v1";
         http.ReqHeader := {[ "Content-Type" := ["application/json"] ]};
         http.ReqBody :=
           Marshalled {| Cmd := cmd;
                         URL := "https://example.com/search/all?q=test&page=1";
                         MaxTimeout := 60000 |} |} :: more
    /\ (~ reported (stub.replyOf (stub.okReply stub.page (intLit "200" 200))) -> more = [])
    /\ (reported (stub.replyOf (stub.okReply stub.page (intLit "200" 200))) ->
          more = [command "http://flaresolverr:8191/v1"
                    "http://example.com/search/all?q=test&page=1" cmd]).
Proof.
  exact (C5_direct_upstream_command stub.direct stub.solving
           (stub.request "POST" "/example.com/search/all" "q=test&page=1")
           "example.com" "search/all" eq_refl eq_refl eq_refl).
Defined.

(** The part of C6 that holds for every GET request in proxy mode: one
    request goes upstream, with the command "request.get" and with the
    leftmost "http://" of the request URL replaced by "https://"; a URL
    with the scheme http is thus sent with the scheme https and is
    otherwise unchanged. *)
Lemma proxy_get_command p env r :
  http.Method r = "GET" ->
  url_Parse env (ProxyHandler.flareSolverrURL p) = None ->
  upstream (serveProxy p env r)
  = [command (ProxyHandler.flareSolverrURL p)
       (Replace1 (http.URL_String r) "http://" "https://") "request.get"]
  /\ (forall rest, http.URL_String r = "http://" +:+ rest ->
        Replace1 (http.URL_String r) "http://" "https://" = "https://" +:+ rest).
Proof.
  intros Hget Hurl. split.
  - by rewrite (serveProxy_get _ _ _ Hget), (handleRequest_attempt _ _ _ _ Hurl),
      conclude_upstream.
  - intros rest ->. apply Replace1_http.
Qed.

(** C6 at the failing input: for a GET request whose URL has the scheme
    https and carries "http://" in its query, the URL sent upstream is not
    the request's URL; the "http://" inside the query has been rewritten. *)
Theorem C6_inner_occurrence_is_rewritten :
  http.URL_String (stub.proxied "GET" "https" "example.com" "/" "next=http://foo")
  = "https://example.com/?next=http://foo"
  /\ upstream (serveProxy stub.proxy
                 stub.solving
                 (stub.proxied "GET" "https" "example.com" "/" "next=http://foo"))
     = [command defaultFlareSolverrURL "https://example.com/?next=https://foo" "request.get"].
Proof. split; reflexivity. Qed.

(** C7, as stated, fails: in direct mode an upstream-reported failure of
    the HTTPS attempt is followed by the HTTP attempt, and when that one
    succeeds the client receives the page with status 200, not a 500. *)
Lemma C7_counterexample :
  ~ (forall (h : Handler) (env : Env) (r : http.Request) (i : nat)
            (c : http.ClientRequest) (message : string),
       upstream (serve h env r) !! i = Some c ->
       Failure (client_Do env (take i (upstream (serve h env r))) c) message ->
       respondsError message (serve h env r)).
Proof.
  intros H.
  specialize (H (Direct stub.direct) stub.httpOnly (stub.get "/example.com/x" "") 0%nat
                (command defaultFlareSolverrURL "https://example.com/x" "request.get")
                "FlareSolverr error: blocked" eq_refl).
  destruct H as [Hcode _].
  - by eapply (ReportedFailure _ _
                 {| Solution := Sol.zero; Status := "error"; Message := "blocked" |}).
  - vm_compute in Hcode. discriminate Hcode.
Qed.

(** C7, amended: when the last upstream attempt made for a request fails
    (transport error, unreadable body, malformed body, or a well-formed
    reply whose status is not "ok"), the client receives status 500,
    Content-Type application/json and the JSON object {"error": message};
    the message is logged, it ends with the text of the underlying error,
    and for an upstream-reported failure it ends with the reply's message
    field. In direct mode a reported failure of an attempt on an
    "https://" target is not the last attempt: the HTTP attempt follows
    and decides the answer. *)
Theorem C7_last_failure_is_reported (h : Handler) (env : Env) (r : http.Request)
    (cs : list http.ClientRequest) (c : http.ClientRequest) (message : string) :
  upstream (serve h env r) = (cs ++ [c])%list ->
  Failure (client_Do env cs c) message ->
  (http.Code (w (serve h env r)) = Some 500%nat
   /\ http.Get "Content-Type" (w (serve h env r)) = "application/json"
   /\ http.Body (w (serve h env r)) = [EncodedLine {[ "error" := message ]}])
  /\ "Error: " +:+ message ∈ logged (serve h env r)
  /\ (forall err, client_Do env cs c = Err err ->
        message = "Failed to connect to FlareSolverr: " +:+ Error err)
  /\ (forall resp err, client_Do env cs c = Ok resp -> http.ReadAll resp = Err err ->
        message = "Failed to read response: " +:+ Error err)
  /\ (forall resp body err, client_Do env cs c = Ok resp -> http.ReadAll resp = Ok body ->
        Unmarshal body = Err err ->
        message = "Failed to parse response: " +:+ Error err)
  /\ (forall reply, wellFormed (client_Do env cs c) reply ->
        message = "FlareSolverr error: " +:+ Message reply).
Proof.
  intros Hup HF.
  destruct (serve_shape h env r) as [Hnone|(cs' & c' & st0 & Hup' & Hw & Hst & _)].
  { rewrite Hnone in Hup. by destruct cs. }
  rewrite Hup in Hup'. apply app_inj_tail in Hup' as [<- <-].
  rewrite Hst, (conclude_Failure _ _ _ HF).
  destruct (writeError_fresh message st0 Hw) as (Hresp & _ & ->).
  split; [exact Hresp|].
  split; [apply elem_of_app; right; apply list_elem_of_here|].
  split; [|split; [|split]].
  - intros err Hx. rewrite Hx in HF. by inversion HF.
  - intros resp err Hx Hread. rewrite Hx in HF. inversion HF; subst; congruence.
  - intros resp body err Hx Hread Hdec. rewrite Hx in HF.
    inversion HF; subst; congruence.
  - intros reply (resp & body & Hx & Hread & Hdec). rewrite Hx in HF.
    inversion HF; subst; congruence.
Qed.

Lemma C7_witness :
  (http.Code (w (serve (Proxy stub.proxy)
                   (stub.always (stub.replyOf (stub.errorReply "Test error message")))
                   (stub.proxied "GET" "http" "error-test.com" "" ""))) = Some 500%nat
   /\ http.Get "Content-Type"
        (w (serve (Proxy stub.proxy)
              (stub.always (stub.replyOf (stub.errorReply "Test error message")))
              (stub.proxied "GET" "http" "error-test.com" "" ""))) = "application/json"
   /\ http.Body
        (w (serve (Proxy stub.proxy)
              (stub.always (stub.replyOf (stub.errorReply "Test error message")))
              (stub.proxied "GET" "http" "error-test.com" "" "")))
      = [EncodedLine {[ "error" := "FlareSolverr error: Test error message" ]}])
  /\ "Error: FlareSolverr error: Test error message"
     ∈ logged (serve (Proxy stub.proxy)
                 (stub.always (stub.replyOf (stub.errorReply "Test error message")))
                 (stub.proxied "GET" "http" "error-test.com" "" "")).
Proof.
  pose proof (C7_last_failure_is_reported (Proxy stub.proxy)
                (stub.always (stub.replyOf (stub.errorReply "Test error message")))
                (stub.proxied "GET" "http" "error-test.com" "" "") []
                (command defaultFlareSolverrURL "https://error-test.com" "request.get")
                "FlareSolverr error: Test error message" eq_refl) as H.
  destruct H as (H1 & H2 & _).
  - by eapply (ReportedFailure _ _
                 {| Solution := Sol.zero; Status := "error";
                    Message := "Test error message" |}).
  - split; [exact H1|exact H2].
Defined.

(** C8, as stated, fails: the body of the 405 answer to a proxy-mode
    method other than GET and CONNECT is not "Method not allowed" but
    that text followed by a newline. *)
Lemma C8_counterexample :
  ~ (forall (p : ProxyHandler.t) (env : Env) (r : http.Request),
       http.Method r ≠ "GET" -> http.Method r ≠ "CONNECT" ->
       http.Code (w (serveProxy p env r)) = Some 405%nat
       /\ http.Body (w (serveProxy p env r)) = [OfString "Method not allowed"]
       /\ upstream (serveProxy p env r) = []).
Proof.
  intros H.
  destruct (H stub.proxy stub.solving
              (stub.proxied "POST" "http" "example.com" "" "")
              ltac:(discriminate) ltac:(discriminate)) as (_ & Hbody & _).
  vm_compute in Hbody. discriminate Hbody.
Qed.

(** C8, amended: local validation failures never reach the upstream. A
    direct-mode request with path "/" or "" yields 400 and no upstream
    call; a proxy-mode CONNECT yields 405, a body containing "CONNECT
    method is not supported" and no upstream call; any other proxy-mode
    method than GET yields 405, the body "Method not allowed" followed by
    a newline, and no upstream call. *)
Theorem C8_local_failures_stay_local (env : Env) :
  (forall d r,
     http.URL_Path r = "/" \/ http.URL_Path r = "" ->
     http.Code (w (serveDirect d env r)) = Some 400%nat
     /\ upstream (serveDirect d env r) = [])
  /\ (forall p r,
        http.Method r = "CONNECT" ->
        http.Code (w (serveProxy p env r)) = Some 405%nat
        /\ (exists text, http.Body (w (serveProxy p env r)) = [OfString text]
                         /\ Contains text "CONNECT method is not supported" = true)
        /\ upstream (serveProxy p env r) = [])
  /\ (forall p r,
        http.Method r ≠ "GET" -> http.Method r ≠ "CONNECT" ->
        http.Code (w (serveProxy p env r)) = Some 405%nat
        /\ http.Body (w (serveProxy p env r))
           = [OfString ("Method not allowed" +:+ http.newline)]
        /\ upstream (serveProxy p env r) = []).
Proof.
  split; [|split].
  - intros d r Hpath. by rewrite (serveDirect_rejected _ _ _ Hpath).
  - intros p r Hc. rewrite (serveProxy_connect _ _ _ Hc).
    split; [done|]. split; [|done].
    eexists. split; reflexivity.
  - intros p r H1 H2. by rewrite (serveProxy_other _ _ _ H1 H2).
Qed.

Lemma C8_witness :
  (http.Code (w (serveDirect stub.direct
                   stub.solving
                   (stub.get "/" ""))) = Some 400%nat
   /\ upstream (serveDirect stub.direct
                  stub.solving
                  (stub.get "/" "")) = [])
  /\ (http.Code (w (serveProxy stub.proxy
                      stub.solving
                      (stub.proxied "POST" "http" "example.com" "" ""))) = Some 405%nat
      /\ http.Body (w (serveProxy stub.proxy
                         stub.solving
                         (stub.proxied "POST" "http" "example.com" "" "")))
         = [OfString ("Method not allowed" +:+ http.newline)]
      /\ upstream (serveProxy stub.proxy
                     stub.solving
                     (stub.proxied "POST" "http" "example.com" "" "")) = []).
Proof.
  destruct (C8_local_failures_stay_local
              stub.solving) as (Hd & _ & Hp).
  split.
  - apply Hd. left. reflexivity.
  - apply Hp; discriminate.
Defined.

Section PathCheck.

Lemma SplitN_2_not_empty s sep : SplitN s sep 2 ≠ [].
Proof. rewrite SplitN_2. by destruct (Index s sep). Qed.

Lemma conclude_code x st :
  w st = http.NewRecorder ->
  http.Code (w (conclude x st)) = Some 200%nat
  \/ http.Code (w (conclude x st)) = Some 500%nat.
Proof.
  intros Hw.
  destruct (conclude_fresh x st Hw)
    as (_ & [(m & _ & Hcode & _)|(reply & _ & _ & Hcode & _)]); eauto.
Qed.

(** A forwarded request is answered with 200 or with 500. *)
Lemma serveDirect_forwarded_code d env r :
  http.URL_Path r ≠ "/" -> http.URL_Path r ≠ "" ->
  http.Code (w (serveDirect d env r)) = Some 200%nat
  \/ http.Code (w (serveDirect d env r)) = Some 500%nat.
Proof.
  intros H1 H2.
  destruct (url_Parse env (DirectHandler.flareSolverrURL d)) as [err|] eqn:Hurl.
  - right. rewrite (serveDirect_no_request _ _ _ _ H1 H2 Hurl).
    destruct (writeError_fresh ("Failed to create request: " +:+ Error err)
                (warned (http.Method r) initial)) as ((Hcode & _) & _);
      [apply warned_fresh|done].
  - destruct (serveDirect_attempts _ _ _ H1 H2 Hurl)
      as [(_ & st0 & Hw & _ & ->)|(_ & st0 & Hw & _ & ->)];
      by apply conclude_code.
Qed.

End PathCheck.



Example empty_first_segment :
  upstream (serveDirect stub.direct
              stub.solving
              (stub.get "//example.com/x" ""))
  = [command defaultFlareSolverrURL "https:///example.com/x" "request.get"].
Proof. reflexivity. Qed.

(** C10: the second "Invalid URL format" branch of the Direct Router is
    dead. For every path that passes the first check, splitting the path
    without its leading slash at the first "/" gives at least one piece,
    the request is forwarded, and the answer is a 200 or a 500, never the
    400 of that branch: a 400 is returned for the paths "/" and "" only. *)
Theorem C10_second_format_check_is_dead (d : DirectHandler.t) (env : Env)
    (r : http.Request) :
  http.URL_Path r ≠ "/" -> http.URL_Path r ≠ "" ->
  (1 <= length (SplitN (trimmed (http.URL_Path r)) "/" 2))%nat
  /\ serveDirect d env r
     = DirectHandler.forwardToFlareSolverr d env ("https://" +:+ hostAndPath r)
         (chosen (http.Method r)) (warned (http.Method r) initial)
  /\ http.Code (w (serveDirect d env r)) ≠ Some 400%nat.
Proof.
  intros H1 H2. split; [|split].
  - pose proof (SplitN_2_not_empty (trimmed (http.URL_Path r)) "/") as Hparts.
    destruct (SplitN _ "/" 2); [done|cbn; lia].
  - by apply serveDirect_forward.
  - destruct (serveDirect_forwarded_code d env r H1 H2) as [-> | ->]; discriminate.
Qed.

Lemma C10_witness :
  (1 <= length (SplitN (trimmed "/example.com") "/" 2))%nat
  /\ http.Code (w (serveDirect stub.direct
                     (stub.always (Err (errorString "connection refused")))
                     (stub.get "/example.com" ""))) ≠ Some 400%nat.
Proof.
  destruct (C10_second_format_check_is_dead stub.direct
              (stub.always (Err (errorString "connection refused")))
              (stub.get "/example.com" "")) as (H1 & _ & H2);
    [discriminate|discriminate|].
  split; [exact H1|exact H2].
Defined.

(** ** Further properties of [main.go] *)

Section Outcomes.

Lemma serve_Outcome h env r : Outcome h env r (serve h env r).
Proof.
  destruct h as [p|d]; cbn [serve].
  - destruct (decide (http.Method r = "GET")) as [Hget|Hget].
    + rewrite (serveProxy_get _ _ _ Hget).
      destruct (url_Parse env (ProxyHandler.flareSolverrURL p)) as [err|] eqn:Hurl.
      * rewrite (handleRequest_no_request _ _ _ _ _ Hurl).
        by apply (NoRequest (Proxy p) env r err).
      * rewrite (handleRequest_attempt _ _ _ _ Hurl).
        apply (OneAttempt (Proxy p) env r); [done|done|discriminate].
    + destruct (decide (http.Method r = "CONNECT")) as [Hc|Hc].
      * rewrite (serveProxy_connect _ _ _ Hc). by eapply ConnectRejected.
      * rewrite (serveProxy_other _ _ _ Hget Hc). by eapply MethodRejected.
  - destruct (decide (http.URL_Path r = "/")) as [H1|H1];
      [rewrite serveDirect_rejected by (by left); eapply BadPath; eauto|].
    destruct (decide (http.URL_Path r = "")) as [H2|H2];
      [rewrite serveDirect_rejected by (by right); eapply BadPath; eauto|].
    destruct (url_Parse env (DirectHandler.flareSolverrURL d)) as [err|] eqn:Hurl.
    + rewrite (serveDirect_no_request _ _ _ _ H1 H2 Hurl).
      by apply (NoRequest (Direct d) env r err).
    + rewrite (serveDirect_forward _ _ _ H1 H2), (forward_attempts _ _ _ _ _ Hurl).
      cbv zeta. destruct (warned_fresh (http.Method r)) as [_ Hup].
      rewrite Hup, HasPrefix_https, andb_true_r, Replace1_https. cbn [app].
      destruct (reportedb _) eqn:Hrep.
      * apply reportedb_spec in Hrep.
        by apply (TwoAttempts (Direct d) env r d).
      * apply (OneAttempt (Direct d) env r); [done|done|].
        intros d' _ Hrep'%reportedb_spec. cbn [firstCommand] in Hrep'. congruence.
Qed.

Lemma ready_fresh h r :
  w (ready h r) = http.NewRecorder /\ upstream (ready h r) = [].
Proof. destruct h; [done|apply warned_fresh]. Qed.

(** A concluded attempt either reports its failure and logs it, or relays
    the page and logs nothing. *)
Lemma conclude_outcome x st :
  w st = http.NewRecorder ->
  (exists message,
     Failure x message /\ respondsError message (conclude x st)
     /\ logged (conclude x st) = (logged st ++ ["Error: " +:+ message])%list)
  \/ (exists reply,
        wellFormed x reply /\ Status reply = "ok"
        /\ respondsPage (Sol.Response (Solution reply)) (conclude x st)
        /\ logged (conclude x st) = logged st).
Proof.
  intros Hw.
  destruct (Failure_or_solved x) as [[message HF]|[reply [Hwf Hok]]].
  - left. exists message. rewrite (conclude_Failure _ _ _ HF).
    destruct (writeError_fresh message st Hw) as (? & _ & ?). done.
  - right. exists reply. rewrite (conclude_solved _ _ _ Hwf Hok).
    destruct (writePage_fresh (Sol.Response (Solution reply)) st Hw) as (? & _ & ?). done.
Qed.

End Outcomes.


(** X1: every request is answered exactly once, in one of four ways: 200
    with an HTML body, 500 with a JSON error object, 400 with the plain
    text of the path check (direct mode only), or 405 with a plain text
    (proxy mode only). The Content-Type always goes with the status, the
    body is written in one piece, and a 400 or 405 means that nothing was
    sent upstream. *)
Theorem X1_four_answers (h : Handler) (env : Env) (r : http.Request) :
  (http.Code (w (serve h env r)) = Some 200%nat
   /\ http.Get "Content-Type" (w (serve h env r)) = "text/html; charset=utf-8"
   /\ exists html, http.Body (w (serve h env r)) = [OfString html])
  \/ (http.Code (w (serve h env r)) = Some 500%nat
      /\ http.Get "Content-Type" (w (serve h env r)) = "application/json"
      /\ exists message,
           http.Body (w (serve h env r)) = [EncodedLine {[ "error" := message ]}])
  \/ (http.Code (w (serve h env r)) = Some 400%nat
      /\ http.Get "Content-Type" (w (serve h env r)) = "text/plain; charset=utf-8"
      /\ http.Body (w (serve h env r))
         = [OfString (DirectHandler.invalidURLFormat +:+ http.newline)]
      /\ (exists d, h = Direct d)
      /\ upstream (serve h env r) = [])
  \/ (http.Code (w (serve h env r)) = Some 405%nat
      /\ http.Get "Content-Type" (w (serve h env r)) = "text/plain; charset=utf-8"
      /\ (exists text, http.Body (w (serve h env r)) = [OfString text])
      /\ (exists p, h = Proxy p)
      /\ upstream (serve h env r) = []).
Proof.
  destruct (serve_Outcome h env r) as [d Hh _|p Hh _|p Hh _ _|err _ _| |d ? ? ? ? c2].
  - right. right. left. repeat split; eauto.
  - right. right. right. repeat split; eauto.
  - right. right. right. repeat split; eauto.
  - right. left.
    destruct (writeError_fresh ("Failed to create request: " +:+ Error err) (ready h r))
      as ((? & ? & ?) & _); [apply ready_fresh|]. eauto 10.
  - destruct (conclude_outcome (client_Do env [] (firstCommand h r))
                (sent (firstCommand h r) (ready h r)))
      as [(m & _ & (? & ? & ?) & _)|(reply & _ & _ & (? & ? & ?) & _)];
      [apply ready_fresh|right; left; eauto 10|left; eauto 10].
  - destruct (conclude_outcome (client_Do env [firstCommand h r] c2)
                (sent c2
                   (log_Printf
                      ("HTTPS failed, trying HTTP fallback for: http://" +:+ hostAndPath r)
                      (sent (firstCommand h r) (ready h r)))))
      as [(m & _ & (? & ? & ?) & _)|(reply & _ & _ & (? & ? & ?) & _)];
      [apply ready_fresh|right; left; eauto 10|left; eauto 10].
Qed.

(** X2: whatever the upstream does and whatever the configuration, a
    proxy-mode request sends at most one request upstream and a direct-mode
    request at most two, and every request sent is a POST to the handler's
    flareSolverrURL with the header Content-Type: application/json and a
    marshalled command whose maxTimeout is 60000. *)
Theorem X2_upstream_requests_are_bounded_posts (h : Handler) (env : Env)
    (r : http.Request) :
  (length (upstream (serve h env r))
   <= match h with Proxy _ => 1 | Direct _ => 2 end)%nat
  /\ Forall (fun c =>
               http.ReqMethod c = "POST"
               /\ http.ReqURL c = baseURL h
               /\ http.ReqHeader c = {[ "Content-Type" := ["application/json"] ]}
               /\ exists cmd targetURL,
                    http.ReqBody c
                    = Marshalled {| Cmd := cmd; URL := targetURL; MaxTimeout := 60000 |})
            (upstream (serve h env r)).
Proof.
  assert (Hfirst :
    http.ReqMethod (firstCommand h r) = "POST"
    /\ http.ReqURL (firstCommand h r) = baseURL h
    /\ http.ReqHeader (firstCommand h r) = {[ "Content-Type" := ["application/json"] ]}
    /\ exists cmd targetURL,
         http.ReqBody (firstCommand h r)
         = Marshalled {| Cmd := cmd; URL := targetURL; MaxTimeout := 60000 |})
    by (destruct h; cbn; eauto 10).
  destruct (ready_fresh h r) as [_ Hready].
  destruct (serve_Outcome h env r) as [d -> _|p -> _|p -> _ _|err _ _| |d -> ? ? ? c2].
  - split; [cbn; lia|constructor].
  - split; [cbn; lia|constructor].
  - split; [cbn; lia|constructor].
  - change (upstream (writeError _ (ready h r))) with (upstream (ready h r)).
    rewrite Hready. split; [destruct h; cbn; lia|constructor].
  - rewrite conclude_upstream. cbn [upstream sent]. rewrite Hready. cbn [app].
    split; [destruct h; cbn; lia|]. constructor; [exact Hfirst|constructor].
  - rewrite conclude_upstream. cbn [upstream sent log_Printf]. rewrite Hready. cbn [app].
    split; [cbn; lia|].
    constructor; [exact Hfirst|]. constructor; [|constructor]. cbn. eauto 10.
Qed.

(** X3: a 500 answer and the log agree: whenever the client is answered
    with status 500, the body is the JSON object {"error": message} and the
    last line handed to the logger is "Error: " followed by that message. *)
Theorem X3_server_errors_are_logged (h : Handler) (env : Env) (r : http.Request) :
  http.Code (w (serve h env r)) = Some 500%nat ->
  exists message,
    http.Body (w (serve h env r)) = [EncodedLine {[ "error" := message ]}]
    /\ last (logged (serve h env r)) = Some ("Error: " +:+ message).
Proof.
  destruct (serve_Outcome h env r) as [d _ _|p _ _|p _ _ _|err _ _| |d ? ? ? ? c2];
    try discriminate.
  - intros _.
    destruct (writeError_fresh ("Failed to create request: " +:+ Error err) (ready h r))
      as ((_ & _ & ?) & _ & ->); [apply ready_fresh|].
    eexists. split; [done|]. by rewrite last_snoc.
  - destruct (conclude_outcome (client_Do env [] (firstCommand h r))
                (sent (firstCommand h r) (ready h r)))
      as [(m & _ & (_ & _ & ?) & ->)|(reply & _ & _ & (Hcode & _) & _)];
      [apply ready_fresh| |congruence].
    intros _. exists m. split; [done|]. by rewrite last_snoc.
  - destruct (conclude_outcome (client_Do env [firstCommand h r] c2)
                (sent c2
                   (log_Printf
                      ("HTTPS failed, trying HTTP fallback for: http://" +:+ hostAndPath r)
                      (sent (firstCommand h r) (ready h r)))))
      as [(m & _ & (_ & _ & ?) & ->)|(reply & _ & _ & (Hcode & _) & _)];
      [apply ready_fresh| |congruence].
    intros _. exists m. split; [done|]. by rewrite last_snoc.
Qed.

Lemma X3_witness :
  exists message,
    http.Body (w (serve (Proxy stub.proxy)
                    (stub.always (Err (errorString "dial tcp: connection refused")))
                    (stub.proxied "GET" "http" "example.com" "" "")))
    = [EncodedLine {[ "error" := message ]}]
    /\ last (logged (serve (Proxy stub.proxy)
                      (stub.always (Err (errorString "dial tcp: connection refused")))
                      (stub.proxied "GET" "http" "example.com" "" "")))
       = Some ("Error: " +:+ message).
Proof.
  apply (X3_server_errors_are_logged (Proxy stub.proxy)
           (stub.always (Err (errorString "dial tcp: connection refused")))
           (stub.proxied "GET" "http" "example.com" "" "")).
  reflexivity.
Defined.


Section LogLines.

Lemma ready_logs_no_error h r line :
  line ∈ logged (ready h r) -> HasPrefix line "Error: " = false.
Proof.
  destruct h as [p|d]; cbn [ready]; [by intros ?%elem_of_nil|].
  unfold warned. destruct (_ || _); cbn; [by intros ?%elem_of_nil|].
  intros Hline%list_elem_of_singleton. by subst.
Qed.

Lemma ready_logs_other h r line :
  line ∈ logged (ready h r) -> HasPrefix line "Warning: " = true.
Proof.
  destruct h as [p|d]; cbn [ready]; [by intros ?%elem_of_nil|].
  unfold warned. destruct (_ || _); cbn; [by intros ?%elem_of_nil|].
  intros Hline%list_elem_of_singleton. by subst.
Qed.

End LogLines.

(** X4: a line starting with "Error: " is logged if and only if the
    client is answered with status 500. *)
Theorem X4_error_line_iff_500 (h : Handler) (env : Env) (r : http.Request) :
  (exists line, line ∈ logged (serve h env r) /\ HasPrefix line "Error: " = true)
  <-> http.Code (w (serve h env r)) = Some 500%nat.
Proof.
  assert (Herr : forall message, HasPrefix ("Error: " +:+ message) "Error: " = true)
    by reflexivity.
  assert (Hpre : forall line,
            line ∈ logged (ready h r) -> HasPrefix line "Error: " = true -> False)
    by (intros line Hin; rewrite (ready_logs_no_error _ _ _ Hin); discriminate).
  destruct (serve_Outcome h env r) as [d _ _|p _ _|p _ _ _|err _ _| |d ? ? ? ? c2].
  - split; [|discriminate]. by intros (line & ?%elem_of_nil & _).
  - split; [|discriminate].
    intros (line & Hline%list_elem_of_singleton & Hp). subst. discriminate Hp.
  - split; [|discriminate]. by intros (line & ?%elem_of_nil & _).
  - destruct (writeError_fresh ("Failed to create request: " +:+ Error err) (ready h r))
      as ((Hcode & _) & _ & Hlog); [apply ready_fresh|].
    split; [done|]. intros _. eexists. split; [|apply Herr].
    rewrite Hlog. apply elem_of_app. right. apply list_elem_of_here.
  - destruct (conclude_outcome (client_Do env [] (firstCommand h r))
                (sent (firstCommand h r) (ready h r)))
      as [(m & _ & (Hcode & _) & Hlog)|(reply & _ & _ & (Hcode & _) & Hlog)];
      [apply ready_fresh| |]; rewrite Hlog, Hcode.
    + split; [done|]. intros _. eexists. split; [|apply Herr].
      apply elem_of_app. right. apply list_elem_of_here.
    + split; [|discriminate]. intros (line & Hin & Hp). exfalso. eauto.
  - destruct (conclude_outcome (client_Do env [firstCommand h r] c2)
                (sent c2
                   (log_Printf
                      ("HTTPS failed, trying HTTP fallback for: http://" +:+ hostAndPath r)
                      (sent (firstCommand h r) (ready h r)))))
      as [(m & _ & (Hcode & _) & Hlog)|(reply & _ & _ & (Hcode & _) & Hlog)];
      [apply ready_fresh| |]; rewrite Hlog, Hcode.
    + split; [done|]. intros _. eexists. split; [|apply Herr].
      apply elem_of_app. right. apply list_elem_of_here.
    + split; [|discriminate]. intros (line & Hin & Hp). exfalso.
      cbn [logged sent log_Printf] in Hin.
      apply elem_of_app in Hin as [Hin|Hline%list_elem_of_singleton]; [eauto|].
      subst. discriminate Hp.
Qed.

Section Frames.

Lemma conclude_logged x st :
  exists lines, logged (conclude x st) = (logged st ++ lines)%list.
Proof.
  unfold conclude.
  repeat match goal with |- context [match ?e with _ => _ end] => destruct e end;
    first [by eexists [_] | by exists []; rewrite app_nil_r].
Qed.

Lemma forward_appends d env targetURL cmd st :
  exists calls lines,
    upstream (DirectHandler.forwardToFlareSolverr d env targetURL cmd st)
    = (upstream st ++ calls)%list
    /\ logged (DirectHandler.forwardToFlareSolverr d env targetURL cmd st)
       = (logged st ++ lines)%list.
Proof.
  destruct (url_Parse env (DirectHandler.flareSolverrURL d)) as [err|] eqn:Hurl.
  - rewrite (forward_no_request _ _ _ _ _ _ Hurl). eexists [], [_].
    split; [by rewrite app_nil_r|reflexivity].
  - rewrite (forward_attempts _ _ _ _ _ Hurl). cbv zeta.
    destruct (_ && _).
    + match goal with |- context [conclude ?x ?s] =>
        destruct (conclude_logged x s) as [lines Hlog] end.
      rewrite conclude_upstream, Hlog. cbn [upstream logged sent log_Printf].
      eexists [_; _], (_ :: lines). by rewrite <- !app_assoc.
    + match goal with |- context [conclude ?x ?s] =>
        destruct (conclude_logged x s) as [lines Hlog] end.
      rewrite conclude_upstream, Hlog. cbn [upstream logged sent].
      by eexists [_], lines.
Qed.

End Frames.

(** X6: when [http.NewRequest] refuses the configured base URL, a request
    that passed the local checks is answered with status 500 and the JSON
    error "Failed to create request: " followed by the error's text, the
    message is logged, and nothing is sent upstream, in either mode. *)
Theorem X6_unparsable_base_url (h : Handler) (env : Env) (r : http.Request)
    (err : error) :
  url_Parse env (baseURL h) = Some err ->
  match h with
  | Proxy _ => http.Method r = "GET"
  | Direct _ => http.URL_Path r ≠ "/" /\ http.URL_Path r ≠ ""
  end ->
  http.Code (w (serve h env r)) = Some 500%nat
  /\ http.Body (w (serve h env r))
     = [EncodedLine {[ "error" := "Failed to create request: " +:+ Error err ]}]
  /\ last (logged (serve h env r))
     = Some ("Error: Failed to create request: " +:+ Error err)
  /\ upstream (serve h env r) = [].
Proof.
  intros Hurl Hfwd.
  assert (Hserve : serve h env r
                   = writeError ("Failed to create request: " +:+ Error err) (ready h r)).
  { destruct h as [p|d]; cbn [serve ready].
    - by rewrite (serveProxy_get _ _ _ Hfwd), (handleRequest_no_request _ _ _ _ _ Hurl).
    - destruct Hfwd as [H1 H2]. by apply serveDirect_no_request. }
  rewrite Hserve.
  destruct (ready_fresh h r) as [Hw Hup].
  destruct (writeError_fresh ("Failed to create request: " +:+ Error err) (ready h r) Hw)
    as ((? & _ & ?) & -> & ->).
  rewrite last_snoc. done.
Qed.

Lemma X6_witness :
  http.Code (w (serve (Direct stub.direct)
                  {| url_Parse := fun _ => Some (errorString "parse: missing protocol scheme");
                     client_Do := fun _ _ => Err (errorString "unused") |}
                  (stub.get "/example.com/x" ""))) = Some 500%nat
  /\ upstream (serve (Direct stub.direct)
                 {| url_Parse := fun _ => Some (errorString "parse: missing protocol scheme");
                    client_Do := fun _ _ => Err (errorString "unused") |}
                 (stub.get "/example.com/x" "")) = [].
Proof.
  destruct (X6_unparsable_base_url (Direct stub.direct)
              {| url_Parse := fun _ => Some (errorString "parse: missing protocol scheme");
                 client_Do := fun _ _ => Err (errorString "unused") |}
              (stub.get "/example.com/x" "")
              (errorString "parse: missing protocol scheme") eq_refl)
    as (H1 & _ & _ & H2).
  - split; discriminate.
  - split; [exact H1|exact H2].
Defined.

Section Reassembly.

Lemma Index_split s m :
  Index s "/" = Some m -> slice_to m s +:+ "/" +:+ slice_from (m + 1) s = s.
Proof.
  revert m. induction s as [|c s IH]; intros m; [discriminate|].
  rewrite Index_cons, HasPrefix_slash. case_bool_decide as Hc.
  - intros [= <-]. by subst c.
  - destruct (Index s "/") as [m'|] eqn:E; [|discriminate].
    intros [= <-]. change (String c (slice_to m' s +:+ "/" +:+ slice_from (m' + 1) s)
                           = String c s).
    by rewrite (IH m').
Qed.

Lemma hostAndPath_trimmed r :
  hostAndPath r = trimmed (http.URL_Path r) +:+ queryPart (http.URL_RawQuery r).
Proof.
  unfold hostAndPath. destruct (Index _ "/") as [m|] eqn:E; [|reflexivity].
  by rewrite <- (Index_split _ _ E) at 3; rewrite !app_assoc'.
Qed.

End Reassembly.

(** X7: splitting the path into domain and remaining path loses nothing:
    for every path that passes the check, the target sent upstream first
    is "https://" followed by the path without its one leading slash,
    followed by "?" and the raw query when there is one. *)
Theorem X7_direct_target_is_the_path (d : DirectHandler.t) (env : Env)
    (r : http.Request) :
  http.URL_Path r ≠ "/" -> http.URL_Path r ≠ "" ->
  url_Parse env (DirectHandler.flareSolverrURL d) = None ->
  exists cmd more,
    upstream (serveDirect d env r)
    = command (DirectHandler.flareSolverrURL d)
        ("https://"
         +:+ match http.URL_Path r with
             | String c rest => if bool_decide (c = "/"%char) then rest else String c rest
             | EmptyString => EmptyString
             end
         +:+ (if bool_decide (http.URL_RawQuery r = "") then ""
              else "?" +:+ http.URL_RawQuery r))
        cmd :: more.
Proof.
  intros H1 H2 Hurl.
  assert (Htarget :
    hostAndPath r
    = match http.URL_Path r with
      | String c rest => if bool_decide (c = "/"%char) then rest else String c rest
      | EmptyString => EmptyString
      end
      +:+ (if bool_decide (http.URL_RawQuery r = "") then ""
           else "?" +:+ http.URL_RawQuery r)).
  { rewrite hostAndPath_trimmed. unfold trimmed, queryPart.
    destruct (http.URL_Path r) as [|c rest]; [done|]. by case_bool_decide. }
  rewrite <- Htarget. exists (chosen (http.Method r)).
  destruct (serveDirect_attempts _ _ _ H1 H2 Hurl)
    as [(_ & st0 & _ & Hup & ->)|(_ & st0 & _ & Hup & ->)];
    rewrite conclude_upstream, Hup; by eexists.
Qed.

Lemma X7_witness :
  exists cmd more,
    upstream (serveDirect stub.direct stub.solving
                (stub.get "/www.science.org/content/article/example" "page=2"))
    = command defaultFlareSolverrURL
        "https://www.science.org/content/article/example?page=2" cmd :: more.
Proof.
  apply (X7_direct_target_is_the_path stub.direct stub.solving
           (stub.get "/www.science.org/content/article/example" "page=2"));
    [discriminate|discriminate|reflexivity].
Defined.

(** X8: the leading slash of the path is optional: a non-empty path that
    does not start with a slash is served exactly as the same path with a
    slash put in front. *)
Theorem X8_leading_slash_is_optional (d : DirectHandler.t) (env : Env)
    (method path query text : string) :
  path ≠ "" -> HasPrefix path "/" = false ->
  serveDirect d env {| http.Method := method; http.URL_Path := path;
                       http.URL_RawQuery := query; http.URL_String := text |}
  = serveDirect d env {| http.Method := method; http.URL_Path := "/" +:+ path;
                         http.URL_RawQuery := query; http.URL_String := text |}.
Proof.
  intros Hne Hslash.
  assert (Hpath : path ≠ "/") by (intros ->; discriminate).
  assert (Hslashed : "/" +:+ path ≠ "/") by (destruct path; [congruence|discriminate]).
  rewrite !serveDirect_forward by (cbn; done || discriminate).
  rewrite !hostAndPath_trimmed. cbn [http.URL_Path http.URL_RawQuery http.Method].
  replace (trimmed path) with path; [reflexivity|].
  destruct path as [|c rest]; [done|]. unfold trimmed.
  rewrite HasPrefix_slash in Hslash.
  destruct (decide (c = "/"%char)) as [->|Hc]; [discriminate Hslash|].
  by rewrite bool_decide_eq_false_2.
Qed.

Lemma X8_witness :
  serveDirect stub.direct stub.httpOnly
    {| http.Method := "GET"; http.URL_Path := "example.com/a";
       http.URL_RawQuery := "q=1"; http.URL_String := "example.com/a?q=1" |}
  = serveDirect stub.direct stub.httpOnly
      {| http.Method := "GET"; http.URL_Path := "/example.com/a";
         http.URL_RawQuery := "q=1"; http.URL_String := "example.com/a?q=1" |}.
Proof.
  apply (X8_leading_slash_is_optional stub.direct stub.httpOnly
           "GET" "example.com/a" "q=1" "example.com/a?q=1"); [discriminate|reflexivity].
Defined.

Section ProxyTargets.

Lemma Replace1_absent s old new : Index s old = None -> Replace1 s old new = s.
Proof.
  induction s as [|c s IH]; cbn [Index Replace1].
  - by destruct (HasPrefix "" old).
  - destruct (HasPrefix (String c s) old); [discriminate|].
    destruct (Index s old); [discriminate|]. intros _. by rewrite IH.
Qed.

Lemma proxy_get_upstream p env r :
  http.Method r = "GET" ->
  url_Parse env (ProxyHandler.flareSolverrURL p) = None ->
  upstream (serveProxy p env r)
  = [command (ProxyHandler.flareSolverrURL p)
       (Replace1 (http.URL_String r) "http://" "https://") "request.get"].
Proof.
  intros Hget Hurl.
  by rewrite (serveProxy_get _ _ _ Hget), (handleRequest_attempt _ _ _ _ Hurl),
    conclude_upstream.
Qed.

End ProxyTargets.

(** X9: a proxy-mode GET for a URL that starts with "http://" sends
    exactly one request upstream: the command "request.get" for the same
    URL with "https://" in place of the leading "http://", the rest of the
    URL (a later "http://" included) being left as it is. *)
Theorem X9_proxy_upgrades_http_scheme (p : ProxyHandler.t) (env : Env)
    (r : http.Request) (rest : string) :
  http.Method r = "GET" ->
  http.URL_String r = "http://" +:+ rest ->
  url_Parse env (ProxyHandler.flareSolverrURL p) = None ->
  upstream (serveProxy p env r)
  = [command (ProxyHandler.flareSolverrURL p) ("https://" +:+ rest) "request.get"].
Proof.
  intros Hget Htext Hurl.
  by rewrite (proxy_get_upstream _ _ _ Hget Hurl), Htext, Replace1_http.
Qed.

Lemma X9_witness :
  upstream (serveProxy stub.proxy stub.solving
              (stub.proxied "GET" "http" "example.com" "/go" "to=http://other.org/"))
  = [command defaultFlareSolverrURL "https://example.com/go?to=http://other.org/"
       "request.get"].
Proof.
  exact (X9_proxy_upgrades_http_scheme stub.proxy stub.solving
           (stub.proxied "GET" "http" "example.com" "/go" "to=http://other.org/")
           "example.com/go?to=http://other.org/" eq_refl eq_refl eq_refl).
Defined.

(** X10: a proxy-mode GET for a URL in which "http://" does not occur is
    forwarded with its URL unchanged, as one "request.get" command. *)
Theorem X10_proxy_keeps_other_urls (p : ProxyHandler.t) (env : Env) (r : http.Request) :
  http.Method r = "GET" ->
  Index (http.URL_String r) "http://" = None ->
  url_Parse env (ProxyHandler.flareSolverrURL p) = None ->
  upstream (serveProxy p env r)
  = [command (ProxyHandler.flareSolverrURL p) (http.URL_String r) "request.get"].
Proof.
  intros Hget Habsent Hurl.
  by rewrite (proxy_get_upstream _ _ _ Hget Hurl), (Replace1_absent _ _ _ Habsent).
Qed.

Lemma X10_witness :
  upstream (serveProxy stub.proxy stub.solving
              (stub.proxied "GET" "https" "example.com" "/a" "b=1"))
  = [command defaultFlareSolverrURL "https://example.com/a?b=1" "request.get"].
Proof.
  exact (X10_proxy_keeps_other_urls stub.proxy stub.solving
           (stub.proxied "GET" "https" "example.com" "/a" "b=1")
           eq_refl eq_refl eq_refl).
Defined.

Section Warnings.

(** Every logged line is a warning of the start, the fallback notice, an
    error, or the rejection of CONNECT. *)
Lemma logged_lines h env r line :
  line ∈ logged (serve h env r) ->
  line ∈ logged (ready h r)
  \/ HasPrefix line "HTTPS failed, " = true
  \/ HasPrefix line "Error: " = true
  \/ HasPrefix line "CONNECT rejected: " = true.
Proof.
  assert (Hconclude : forall x st,
            w st = http.NewRecorder -> line ∈ logged (conclude x st) ->
            line ∈ logged st \/ HasPrefix line "Error: " = true).
  { intros x st Hw.
    destruct (conclude_outcome x st Hw) as [(m & _ & _ & ->)|(reply & _ & _ & _ & ->)];
      [|by left].
    intros [Hin|Hline%list_elem_of_singleton]%elem_of_app; [by left|]. subst. by right. }
  destruct (serve_Outcome h env r) as [d _ _|p _ _|p _ _ _|err _ _| |d ? ? ? ? c2].
  - by intros ?%elem_of_nil.
  - intros Hline%list_elem_of_singleton. subst. by do 3 right.
  - by intros ?%elem_of_nil.
  - destruct (writeError_fresh ("Failed to create request: " +:+ Error err) (ready h r))
      as (_ & _ & ->); [apply ready_fresh|].
    intros [Hin|Hline%list_elem_of_singleton]%elem_of_app; [by left|].
    subst. by right; right; left.
  - intros [Hin|Herr]%Hconclude; [by left|tauto|apply ready_fresh].
  - intros [Hin|Herr]%Hconclude; [|tauto|apply ready_fresh].
    cbn [logged sent log_Printf] in Hin.
    apply elem_of_app in Hin as [Hin|Hline%list_elem_of_singleton]; [by left|].
    subst. by right; left.
Qed.

End Warnings.

(** X11: a direct-mode request that passes the path check with a method
    other than GET and POST logs, before anything else, the warning that
    names the method; with GET or POST it logs no warning at all. *)
Theorem X11_other_methods_are_warned_about (d : DirectHandler.t) (env : Env)
    (r : http.Request) :
  http.URL_Path r ≠ "/" -> http.URL_Path r ≠ "" ->
  (http.Method r ≠ "GET" -> http.Method r ≠ "POST" ->
     head (logged (serveDirect d env r))
     = Some ("Warning: HTTP method " +:+ http.Method r
             +:+ " may not be fully supported by FlareSolverr, using request.get"))
  /\ (http.Method r = "GET" \/ http.Method r = "POST" ->
        forall line, line ∈ logged (serveDirect d env r) ->
                     HasPrefix line "Warning: " = false).
Proof.
  intros H1 H2. split.
  - intros Hget Hpost. rewrite (serveDirect_forward _ _ _ H1 H2).
    destruct (forward_appends d env ("https://" +:+ hostAndPath r)
                (chosen (http.Method r)) (warned (http.Method r) initial))
      as (calls & lines & _ & ->).
    unfold warned. by rewrite !bool_decide_eq_false_2.
  - intros Hmethod line Hin.
    destruct (logged_lines (Direct d) env r line Hin) as [Hready|Hother].
    + cbn [ready] in Hready. unfold warned in Hready.
      destruct Hmethod as [E|E]; rewrite E in Hready; by apply elem_of_nil in Hready.
    + destruct line as [|c line]; [done|].
      destruct (decide (c = "W"%char)) as [->|Hc].
      * destruct Hother as [Hp|[Hp|Hp]]; discriminate Hp.
      * cbn. by rewrite bool_decide_eq_false_2.
Qed.

Lemma X11_witness :
  head (logged (serveDirect stub.direct stub.solving
                  (stub.request "DELETE" "/example.com/item/7" "")))
  = Some ("Warning: HTTP method DELETE may not be fully supported by FlareSolverr, "
          +:+ "using request.get").
Proof.
  apply (X11_other_methods_are_warned_about stub.direct stub.solving
           (stub.request "DELETE" "/example.com/item/7" "")); discriminate.
Defined.


Section Decoding.

Lemma members_app {A} (store : A -> string * value -> result A) ms1 ms2 cur :
  decode.members store (ms1 ++ ms2) cur
  = match decode.members store ms1 cur with
    | Ok cur' => decode.members store ms2 cur'
    | Err err => Err err
    end.
Proof.
  revert cur. induction ms1 as [|m ms1 IH]; intros cur; [reflexivity|].
  cbn [app decode.members]. destruct (store cur m) as [cur'|err]; [apply IH|reflexivity].
Qed.

(** Replacing a member by one that is stored in the same way changes
    nothing. *)
Lemma members_replace {A} (store : A -> string * value -> result A) ms1 m m' ms2 cur :
  (forall cur', store cur' m = store cur' m') ->
  decode.members store (ms1 ++ m :: ms2) cur = decode.members store (ms1 ++ m' :: ms2) cur.
Proof.
  intros Hsame. rewrite !members_app.
  destruct (decode.members store ms1 cur) as [cur'|]; [|reflexivity].
  cbn [decode.members]. by rewrite Hsame.
Qed.

(** Dropping a member that is skipped changes nothing. *)
Lemma members_skip {A} (store : A -> string * value -> result A) ms1 m ms2 cur :
  (forall cur', store cur' m = Ok cur') ->
  decode.members store (ms1 ++ m :: ms2) cur = decode.members store (ms1 ++ ms2) cur.
Proof.
  intros Hskip. rewrite !members_app.
  destruct (decode.members store ms1 cur) as [cur'|]; [|reflexivity].
  cbn [decode.members]. by rewrite Hskip.
Qed.


End Decoding.

Section Relaying.


End Relaying.



(** X13: members the structs have no field for are skipped, whatever
    their value: removing such a member from the reply, at the top level
    or inside the solution object, does not change what [json.Unmarshal]
    returns. *)
Theorem X13_unknown_members_are_skipped (k : string) (v : value)
    (ms1 ms2 : list (string * value)) :
  (selects k "solution" = false -> selects k "status" = false ->
   selects k "message" = false ->
   Unmarshal (Document (JObject (ms1 ++ (k, v) :: ms2)))
   = Unmarshal (Document (JObject (ms1 ++ ms2))))
  /\ (selects k "response" = false -> selects k "status" = false ->
      selects k "cookies" = false -> selects k "userAgent" = false ->
      forall key s1 s2,
        Unmarshal (Document (JObject (ms1 ++ (key, JObject (s1 ++ (k, v) :: s2)) :: ms2)))
        = Unmarshal (Document (JObject (ms1 ++ (key, JObject (s1 ++ s2)) :: ms2)))).
Proof.
  split.
  - intros H1 H2 H3. cbn [Unmarshal]. apply members_skip.
    intros cur. unfold decode.storeResponseField. by rewrite H1, H2, H3.
  - intros H1 H2 H3 H4 key s1 s2. cbn [Unmarshal]. apply members_replace.
    intros cur. unfold decode.storeResponseField.
    destruct (selects key "solution"); [|reflexivity].
    cbn [decode.storeSolution].
    rewrite (members_skip decode.storeSolutionField s1 (k, v) s2); [reflexivity|].
    intros cur'. unfold decode.storeSolutionField. by rewrite H1, H2, H3, H4.
Qed.

Lemma X13_witness :
  Unmarshal (Document (JObject ([("status", JString "ok")]
                                ++ ("version", JString "3.3.21")
                                :: [("solution", JObject [("response", JString "<p>")])])))
  = Unmarshal (Document (JObject ([("status", JString "ok")]
                                  ++ [("solution", JObject [("response", JString "<p>")])]))).
Proof.
  apply (X13_unknown_members_are_skipped "version" (JString "3.3.21")
           [("status", JString "ok")]
           [("solution", JObject [("response", JString "<p>")])]);
    reflexivity.
Defined.

(** X15: the two GET rows of the table of [TestProxyHandler_ServeHTTP]
    hold for every URL: against the test's mock server a proxy-mode GET is
    answered with 500 and the JSON error "FlareSolverr error: Test error
    message" when the URL sent upstream contains "error-test", and with
    200, the HTML Content-Type and the test page otherwise. *)
Theorem X15_mock_server_table (p : ProxyHandler.t) (r : http.Request) :
  http.Method r = "GET" ->
  let targetURL := Replace1 (http.URL_String r) "http://" "https://" in
  (Contains targetURL "error-test" = true ->
     http.Code (w (serveProxy p test.mockServer r)) = Some 500%nat
     /\ http.Get "Content-Type" (w (serveProxy p test.mockServer r)) = "application/json"
     /\ http.Body (w (serveProxy p test.mockServer r))
        = [EncodedLine {[ "error" := "FlareSolverr error: Test error message" ]}])
  /\ (Contains targetURL "error-test" = false ->
        http.Code (w (serveProxy p test.mockServer r)) = Some 200%nat
        /\ http.Get "Content-Type" (w (serveProxy p test.mockServer r))
           = "text/html; charset=utf-8"
        /\ http.Body (w (serveProxy p test.mockServer r)) = [OfString test.html]).
Proof.
  intros Hget targetURL.
  rewrite (serveProxy_get _ _ _ Hget),
    (handleRequest_attempt p test.mockServer r initial eq_refl).
  cbv zeta. cbn [client_Do test.mockServer http.ReqBody command URL]. fold targetURL.
  split; intros ->.
  - rewrite (conclude_Failure _ "FlareSolverr error: Test error message").
    + by apply writeError_fresh.
    + by eapply (ReportedFailure _ _ test.errorResponse).
  - rewrite (conclude_solved _ test.okResponse); [by apply writePage_fresh| |done].
    by eexists _, _.
Qed.

Lemma X15_witness :
  http.Code (w (serveProxy stub.proxy test.mockServer
                  (stub.proxied "GET" "http" "error-test.com" "" ""))) = Some 500%nat
  /\ http.Get "Content-Type"
       (w (serveProxy stub.proxy test.mockServer
             (stub.proxied "GET" "http" "error-test.com" "" ""))) = "application/json"
  /\ http.Body (w (serveProxy stub.proxy test.mockServer
                     (stub.proxied "GET" "http" "error-test.com" "" "")))
     = [EncodedLine {[ "error" := "FlareSolverr error: Test error message" ]}].
Proof.
  apply (X15_mock_server_table stub.proxy
           (stub.proxied "GET" "http" "error-test.com" "" "") eq_refl).
  reflexivity.
Defined.


Section FallbackNotice.

Lemma append_inj_r (a x y : string) : a +:+ x = a +:+ y -> x = y.
Proof.
  induction a as [|c a IH]; [done|].
  change (String c (a +:+ x) = String c (a +:+ y) -> x = y). intros [= H]. by apply IH.
Qed.

End FallbackNotice.

(** X18: the fallback is announced in the log exactly when it happens: a
    direct-mode request logs "HTTPS failed, trying HTTP fallback for: "
    followed by a URL if and only if it sent a second request upstream and
    that URL is the target of the second request. *)
Theorem X18_fallback_is_announced (d : DirectHandler.t) (env : Env) (r : http.Request)
    (httpURL : string) :
  "HTTPS failed, trying HTTP fallback for: " +:+ httpURL ∈ logged (serveDirect d env r)
  <-> exists first cmd,
        upstream (serveDirect d env r)
        = [first; command (DirectHandler.flareSolverrURL d) httpURL cmd].
Proof.
  assert (Hready : "HTTPS failed, trying HTTP fallback for: " +:+ httpURL
                   ∉ logged (ready (Direct d) r)).
  { intros Hin%ready_logs_other. discriminate Hin. }
  assert (Hconclude : forall x st,
            w st = http.NewRecorder ->
            "HTTPS failed, trying HTTP fallback for: " +:+ httpURL ∈ logged (conclude x st) ->
            "HTTPS failed, trying HTTP fallback for: " +:+ httpURL ∈ logged st).
  { intros x st Hw.
    destruct (conclude_outcome x st Hw) as [(m & _ & _ & ->)|(reply & _ & _ & _ & ->)];
      [|done].
    intros [Hin|Hline%list_elem_of_singleton]%elem_of_app; [done|]. discriminate Hline. }
  destruct (ready_fresh (Direct d) r) as [Hw Hup].
  change (serveDirect d env r) with (serve (Direct d) env r).
  destruct (serve_Outcome (Direct d) env r)
    as [d' _ _|p Hh _|p Hh _ _|err _ _| |d' Hh ? ? ? c2]; try discriminate.
  - split; [by intros ?%elem_of_nil|]. by intros (first & cmd & ?).
  - destruct (writeError_fresh ("Failed to create request: " +:+ Error err)
                (ready (Direct d) r) Hw) as (_ & -> & ->).
    rewrite Hup. split; [|by intros (first & cmd & ?)].
    intros [Hin|Hline%list_elem_of_singleton]%elem_of_app; [done|]. discriminate Hline.
  - rewrite conclude_upstream. cbn [upstream sent]. rewrite Hup.
    split; [|by intros (first & cmd & ?)].
    intros Hin%Hconclude; [|done]. done.
  - injection Hh as <-. rewrite conclude_upstream. cbn [upstream sent log_Printf].
    rewrite Hup. cbn [app]. split.
    + intros Hin%Hconclude; [|done]. cbn [logged sent log_Printf] in Hin.
      apply elem_of_app in Hin as [Hin|Hline%list_elem_of_singleton]; [done|].
      change ("HTTPS failed, trying HTTP fallback for: http://" +:+ hostAndPath r)
        with ("HTTPS failed, trying HTTP fallback for: " +:+ ("http://" +:+ hostAndPath r))
        in Hline.
      apply append_inj_r in Hline as ->. by eexists _, _.
    + intros (first & cmd & Heq). subst c2.
      apply (f_equal (fmap (fun c => match http.ReqBody c with
                                     | Marshalled v => URL v
                                     | _ => ""
                                     end))) in Heq.
      cbn in Heq. injection Heq as _ <-.
      match goal with |- _ ∈ logged (conclude ?x ?s) =>
        destruct (conclude_logged x s) as [lines ->] end.
      cbn [logged sent log_Printf]. apply elem_of_app. left.
      apply elem_of_app. right. apply list_elem_of_here.
Qed.

Section WrongKind.

Lemma selects_solution_not_status k :
  selects k "solution" = true -> selects k "status" = false.
Proof.
  unfold selects. intros [H|H]%orb_true_iff; apply bool_decide_eq_true in H.
  - by subst k.
  - apply orb_false_iff. split; apply bool_decide_eq_false.
    + intros ->. discriminate H.
    + intros H'. rewrite H' in H. discriminate H.
Qed.

Lemma members_Err {A} (store : A -> string * value -> result A) ms m cur :
  m ∈ ms -> (forall cur', exists err, store cur' m = Err err) ->
  exists err, decode.members store ms cur = Err err.
Proof.
  intros Hin Herr. revert cur.
  induction ms as [|m' ms IH]; intros cur; [by apply elem_of_nil in Hin|].
  cbn [decode.members].
  destruct (store cur m') as [cur'|err] eqn:Hstore; [|by exists err].
  apply elem_of_cons in Hin as [->|Hin].
  - destruct (Herr cur) as [err Hm]. congruence.
  - by apply IH.
Qed.

End WrongKind.

(** X19: a status of the wrong kind is a malformed body, not a reported
    failure: when a member of the reply that selects the field status
    holds anything but a string or null, [json.Unmarshal] fails, whatever
    else the reply holds. *)
Theorem X19_status_of_wrong_kind (ms : list (string * value)) (k : string) (v : value) :
  (k, v) ∈ ms ->
  selects k "status" = true ->
  v ≠ JNull -> (forall s, v ≠ JString s) ->
  exists err, Unmarshal (Document (JObject ms)) = Err err.
Proof.
  intros Hin Hk Hnull Hstring. cbn [Unmarshal].
  apply (members_Err _ _ (k, v)); [done|].
  intros cur. unfold decode.storeResponseField. rewrite Hk.
  destruct (selects k "solution") eqn:Hsol.
  { apply selects_solution_not_status in Hsol. congruence. }
  destruct v as [| | |s| |]; [congruence| | |by destruct (Hstring s)| |];
    cbn; by eexists.
Qed.

Lemma X19_witness :
  exists err,
    Unmarshal (Document (JObject [("message", JString "x"); ("status", intLit "200" 200)]))
    = Err err.
Proof.
  apply (X19_status_of_wrong_kind _ "status" (intLit "200" 200)).
  - apply list_elem_of_further, list_elem_of_here.
  - reflexivity.
  - discriminate.
  - discriminate.
Defined.
